(** * get-napi-info/generate-matrix.js: the build-matrix generator

    A shallow embedding of [getPlatformConfig] and of the exported
    [action] of [get-napi-info/generate-matrix.js], with the properties
    of the platform registry and of the matrix generator proved on it.

    JavaScript strings are sequences of UTF-16 code units; they are
    modelled as lists of code units so that [String.prototype.trim] and
    [JSON.stringify] see exactly the characters the engine sees. *)

From Stdlib Require Import List NArith Bool Ascii String Lia.
Import ListNotations.

Local Open Scope N_scope.
Local Open Scope list_scope.

(** ** Strings *)

Module JsString.

(** A JavaScript string: its UTF-16 code units. *)
Definition jsstring := list N.

(** [u "text"] is the JavaScript string literal with the given ASCII text. *)
Definition u (s : string) : jsstring :=
  map N_of_ascii (list_ascii_of_string s).

(** [jq "text"] is [u "text"] with every apostrophe read as a double
    quote (U+0022), to write JSON text down. *)
Definition jq (s : string) : jsstring :=
  map (fun c => if c =? 39 then 34 else c) (u s).

Fixpoint eqb (a b : jsstring) : bool :=
  match a, b with
  | [], [] => true
  | x :: a', y :: b' => (x =? y) && eqb a' b'
  | _, _ => false
  end.

(** [sep.join(parts)] of [Array.prototype.join]. *)
Fixpoint join (sep : jsstring) (parts : list jsstring) : jsstring :=
  match parts with
  | [] => []
  | [p] => p
  | p :: rest => p ++ sep ++ join sep rest
  end.

(** WhiteSpace and LineTerminator code points of ECMAScript, the ones
    [String.prototype.trim] strips: TAB, LF, VT, FF, CR, SP, NBSP,
    U+1680, U+2000..U+200A, LS, PS, U+202F, U+205F, U+3000 and ZWNBSP. *)
Definition isWhiteSpaceOrLineTerminator (c : N) : bool :=
  (c =? 9) || (c =? 10) || (c =? 11) || (c =? 12) || (c =? 13)
  || (c =? 32) || (c =? 160) || (c =? 5760)
  || ((8192 <=? c) && (c <=? 8202))
  || (c =? 8232) || (c =? 8233) || (c =? 8239) || (c =? 8287)
  || (c =? 12288) || (c =? 65279).

Fixpoint trimStart (s : jsstring) : jsstring :=
  match s with
  | [] => []
  | c :: rest => if isWhiteSpaceOrLineTerminator c then trimStart rest else s
  end.

Definition trimEnd (s : jsstring) : jsstring := rev (trimStart (rev s)).

(** [s.trim()]. *)
Definition trim (s : jsstring) : jsstring := trimEnd (trimStart s).

Definition CR : N := 13.
Definition LF : N := 10.

(** [s.replace(/\r?\n|\r/g, '')]: scanning left to right, a match of
    CR LF, of LF, or of CR is deleted; any other code unit is kept. *)
Fixpoint replace_line_breaks (s : jsstring) : jsstring :=
  match s with
  | [] => []
  | c :: rest =>
      if c =? LF then replace_line_breaks rest
      else if c =? CR then
        match rest with
        | d :: rest' =>
            if d =? LF then replace_line_breaks rest'
            else replace_line_breaks rest
        | [] => replace_line_breaks rest
        end
      else c :: replace_line_breaks rest
  end.

End JsString.

Import JsString.

(** ** The platform registry: [getPlatformConfig] *)

(** One row of the table: the object literal
    [{ host: ..., target: ..., build: ... }]. *)
Record PlatformConfig := mkConfig {
  host : jsstring;
  target : jsstring;
  build : jsstring
}.

(** What a property read [configs[target]] can yield besides
    [undefined]: a row of the table, or a member that the object literal
    inherits from [Object.prototype]. *)
Inductive jsvalue :=
| Config (c : PlatformConfig)
| ObjectPrototypeMember (name : jsstring).

(** The object literal [configs] of [getPlatformConfig]: its own
    properties, in source order. *)
Definition configs (napiBuildCommand : jsstring)
  : list (jsstring * PlatformConfig) :=
  [ (u "x86_64-apple-darwin",
     mkConfig (u "macos-latest") (u "x86_64-apple-darwin")
       (napiBuildCommand ++ u " --target x86_64-apple-darwin"));
    (u "x86_64-pc-windows-msvc",
     mkConfig (u "windows-latest") (u "x86_64-pc-windows-msvc")
       (napiBuildCommand ++ u " --target x86_64-pc-windows-msvc"));
    (u "i686-pc-windows-msvc",
     mkConfig (u "windows-latest") (u "i686-pc-windows-msvc")
       (napiBuildCommand ++ u " --target i686-pc-windows-msvc"));
    (u "x86_64-unknown-linux-gnu",
     mkConfig (u "ubuntu-22.04") (u "x86_64-unknown-linux-gnu")
       (napiBuildCommand
          ++ u " --target x86_64-unknown-linux-gnu --use-napi-cross"));
    (u "x86_64-unknown-linux-musl",
     mkConfig (u "ubuntu-22.04") (u "x86_64-unknown-linux-musl")
       (napiBuildCommand ++ u " --target x86_64-unknown-linux-musl -x"));
    (u "aarch64-apple-darwin",
     mkConfig (u "macos-latest") (u "aarch64-apple-darwin")
       (napiBuildCommand ++ u " --target aarch64-apple-darwin"));
    (u "aarch64-unknown-linux-gnu",
     mkConfig (u "ubuntu-22.04") (u "aarch64-unknown-linux-gnu")
       (napiBuildCommand
          ++ u " --target aarch64-unknown-linux-gnu --use-cross"));
    (u "armv7-unknown-linux-gnueabihf",
     mkConfig (u "ubuntu-22.04") (u "armv7-unknown-linux-gnueabihf")
       (napiBuildCommand
          ++ u " --target armv7-unknown-linux-gnueabihf --use-cross"));
    (u "aarch64-linux-android",
     mkConfig (u "ubuntu-22.04") (u "aarch64-linux-android")
       (napiBuildCommand ++ u " --target aarch64-linux-android"));
    (u "armv7-linux-androideabi",
     mkConfig (u "ubuntu-22.04") (u "armv7-linux-androideabi")
       (napiBuildCommand ++ u " --target armv7-linux-androideabi"));
    (u "aarch64-unknown-linux-musl",
     mkConfig (u "ubuntu-22.04") (u "aarch64-unknown-linux-musl")
       (napiBuildCommand ++ u " --target aarch64-unknown-linux-musl -x"));
    (u "aarch64-pc-windows-msvc",
     mkConfig (u "windows-latest") (u "aarch64-pc-windows-msvc")
       (napiBuildCommand ++ u " --target aarch64-pc-windows-msvc"));
    (u "x86_64-unknown-freebsd",
     mkConfig (u "ubuntu-22.04") (u "x86_64-unknown-freebsd")
       (napiBuildCommand
          ++ u " --target x86_64-unknown-freebsd --use-cross"));
    (u "aarch64-unknown-freebsd",
     mkConfig (u "ubuntu-22.04") (u "aarch64-unknown-freebsd")
       (napiBuildCommand
          ++ u " --target aarch64-unknown-freebsd --use-cross -- -Zbuild-std=core,std,alloc,proc_macro,panic_abort"));
    (u "riscv64gc-unknown-linux-gnu",
     mkConfig (u "ubuntu-22.04") (u "riscv64gc-unknown-linux-gnu")
       (napiBuildCommand
          ++ u " --target riscv64gc-unknown-linux-gnu --use-cross"));
    (u "riscv64gc-unknown-linux-musl",
     mkConfig (u "ubuntu-22.04") (u "riscv64gc-unknown-linux-musl")
       (napiBuildCommand
          ++ u " --target riscv64gc-unknown-linux-musl --use-cross")) ].

(** The identifiers of the table: the keys of [configs]. *)
Definition supported_targets : list jsstring :=
  map fst (configs []).

(** The property names every object literal inherits from
    [Object.prototype]; each of them reads as a function, except
    [__proto__], which reads as [Object.prototype] itself. All are
    truthy. *)
Definition Object_prototype_names : list jsstring :=
  [ u "constructor"; u "__defineGetter__"; u "__defineSetter__";
    u "hasOwnProperty"; u "__lookupGetter__"; u "__lookupSetter__";
    u "isPrototypeOf"; u "propertyIsEnumerable"; u "toString";
    u "valueOf"; u "__proto__"; u "toLocaleString" ].

(** Own-property lookup in an object literal given by its properties. *)
Fixpoint own_property {A : Type} (props : list (jsstring * A))
  (key : jsstring) : option A :=
  match props with
  | [] => None
  | (k, v) :: rest => if eqb k key then Some v else own_property rest key
  end.

(** The property read [obj[key]] on an object literal with own
    properties [props]: the own property if there is one, else the member
    inherited from [Object.prototype], else [undefined] ([None]). *)
Definition get_property (props : list (jsstring * PlatformConfig))
  (key : jsstring) : option jsvalue :=
  match own_property props key with
  | Some c => Some (Config c)
  | None =>
      if existsb (eqb key) Object_prototype_names
      then Some (ObjectPrototypeMember key)
      else None
  end.

(** [getPlatformConfig(target, napiBuildCommand)]:
    [return configs[target] || null]. Objects and functions are truthy, so
    [||] yields [null] ([None]) exactly when the read is [undefined]. *)
Definition getPlatformConfig (target napiBuildCommand : jsstring)
  : option jsvalue :=
  get_property (configs napiBuildCommand) target.

(** The host of the row of identifier [id], read off the table. *)
Definition host_of (id : jsstring) : jsstring :=
  match own_property (configs []) id with
  | Some c => host c
  | None => []
  end.

(** The fixed suffix flags of identifier [id], read off the table: what
    the row's [build] template holds after [ --target <id>]. *)
Definition suffix_flags (id : jsstring) : jsstring :=
  match own_property (configs []) id with
  | Some c => skipn (List.length (u " --target " ++ id)) (build c)
  | None => []
  end.

(** ** JSON values and [JSON.stringify] *)

(** A value produced by [JSON.parse]. A number is carried by its JSON
    text ([Number::toString]), the only way this program can observe it
    besides its truthiness; an object by its own properties in
    enumeration order. *)
#[local] Set Warnings "-register-all".
Inductive json :=
| JNull
| JBool (b : bool)
| JNumber (text : jsstring)
| JString (s : jsstring)
| JArray (elements : list json)
| JObject (props : list (jsstring * json)).

Module Json.

Definition hex_digit (n : N) : N := if n <? 10 then 48 + n else 87 + n.

(** [UnicodeEscape(C)]: a backslash, [u], and four lower-case hex digits. *)
Definition UnicodeEscape (c : N) : jsstring :=
  [ 92; 117;
    hex_digit ((c / 4096) mod 16); hex_digit ((c / 256) mod 16);
    hex_digit ((c / 16) mod 16); hex_digit (c mod 16) ].

Definition isLeadingSurrogate (c : N) : bool := (55296 <=? c) && (c <=? 56319).
Definition isTrailingSurrogate (c : N) : bool := (56320 <=? c) && (c <=? 57343).

(** The escape of one code unit that is not part of a surrogate pair. *)
Definition escape_unit (c : N) : jsstring :=
  if c =? 8 then [92; 98]
  else if c =? 9 then [92; 116]
  else if c =? 10 then [92; 110]
  else if c =? 12 then [92; 102]
  else if c =? 13 then [92; 114]
  else if c =? 34 then [92; 34]
  else if c =? 92 then [92; 92]
  else if (c <? 32) || isLeadingSurrogate c || isTrailingSurrogate c
  then UnicodeEscape c
  else [c].

Fixpoint escape_units (s : jsstring) : jsstring :=
  match s with
  | [] => []
  | c :: rest =>
      if isLeadingSurrogate c then
        match rest with
        | d :: rest' =>
            if isTrailingSurrogate d then c :: d :: escape_units rest'
            else escape_unit c ++ escape_units rest
        | [] => escape_unit c
        end
      else escape_unit c ++ escape_units rest
  end.

(** [QuoteJSONString(s)]. *)
Definition QuoteJSONString (s : jsstring) : jsstring :=
  [34] ++ escape_units s ++ [34].

(** [JSON.stringify(v)] of a parsed value, without indentation. *)
Fixpoint stringify (v : json) : jsstring :=
  match v with
  | JNull => u "null"
  | JBool true => u "true"
  | JBool false => u "false"
  | JNumber text => text
  | JString s => QuoteJSONString s
  | JArray elements => u "[" ++ join (u ",") (map stringify elements) ++ u "]"
  | JObject props =>
      u "{"
      ++ join (u ",")
           (map (fun p => QuoteJSONString (fst p) ++ u ":" ++ stringify (snd p))
              props)
      ++ u "}"
  end.

(** Serialization of one element of [matrixItems]: a table row is an
    object with the keys [host], [target], [build] in that order; a
    function (an inherited method) inside an array is written [null];
    [Object.prototype] has no enumerable own property and is written as
    the empty object. *)
Definition stringify_item (v : jsvalue) : jsstring :=
  match v with
  | Config c =>
      u "{" ++ QuoteJSONString (u "host") ++ u ":" ++ QuoteJSONString (host c)
      ++ u "," ++ QuoteJSONString (u "target") ++ u ":"
      ++ QuoteJSONString (target c)
      ++ u "," ++ QuoteJSONString (u "build") ++ u ":"
      ++ QuoteJSONString (build c) ++ u "}"
  | ObjectPrototypeMember name =>
      if eqb name (u "__proto__") then u "{}" else u "null"
  end.

(** [JSON.stringify({ settings: matrixItems })]. *)
Definition stringify_matrix (matrixItems : list jsvalue) : jsstring :=
  u "{" ++ QuoteJSONString (u "settings") ++ u ":"
  ++ u "[" ++ join (u ",") (map stringify_item matrixItems) ++ u "]" ++ u "}".

(** [ToBoolean] of a value read from the manifest; [None] is
    [undefined]. *)
Definition ToBoolean (v : option json) : bool :=
  match v with
  | None => false
  | Some JNull => false
  | Some (JBool b) => b
  | Some (JNumber text) => negb (eqb text (u "0"))
  | Some (JString s) => negb (eqb s [])
  | Some (JArray _) => true
  | Some (JObject _) => true
  end.

(** [Array.isArray(v)]. *)
Definition isArray (v : option json) : bool :=
  match v with
  | Some (JArray _) => true
  | _ => false
  end.

(** The elements of an array value. *)
Definition elements_of (v : option json) : list json :=
  match v with
  | Some (JArray elements) => elements
  | _ => []
  end.

(** The optional read [v?.key], for a key that no prototype defines and
    that is neither an index nor [length] (here: [napi], [targets]):
    [undefined] on [undefined] and [null], on primitives and on arrays;
    the own property on an object. *)
Definition optional_get (v : option json) (key : jsstring) : option json :=
  match v with
  | Some (JObject props) => own_property props key
  | _ => None
  end.

End Json.

(** ** The runtime the action runs in *)

(** A thrown exception, with its [message]. [Error] is what the action
    itself throws with [new Error(...)]; the others are thrown by the
    runtime. *)
Inductive exn :=
| Error (message : jsstring)
| SystemError (message : jsstring)
| SyntaxError (message : jsstring)
| TypeError (message : jsstring).

Definition message (e : exn) : jsstring :=
  match e with
  | Error m | SystemError m | SyntaxError m | TypeError m => m
  end.

(** How an evaluation completes: normally with a value, or by a throw. *)
Inductive completion (A : Type) :=
| Normal (a : A)
| Throw (e : exn).
Arguments Normal {A} a.
Arguments Throw {A} e.

(** What the action takes from Node: the file system, the JSON parser,
    [path.dirname], and the text of the [TypeError] that [target.trim()]
    raises on a parsed value that is not a string. *)
Record Runtime := mkRuntime {
  existsSync : jsstring -> bool;
  readFileSync : jsstring -> completion jsstring;
  JSON_parse : jsstring -> completion json;
  dirname : jsstring -> jsstring;
  TypeError_message : json -> jsstring
}.

(** A line written to the console, recorded by call site and arguments
    (in the order of the source) rather than as formatted text;
    [error_*] lines go through [console.error]. *)
Inductive console_line :=
| log_reading (packageJsonPath : jsstring)
| log_found (length : nat)
| log_raw_targets (napiTargets : list json)
| log_processing (cleanTarget : jsstring)
| log_added (cleanTarget : jsstring)
| error_no_config (cleanTarget : jsstring)
| log_generated (length : nat)
| log_matrix (matrixJson : jsstring)
| log_binding_directory (bindingDirectory : jsstring)
| error_generating (message : jsstring).

(** The observable state: the console, the outputs published with
    [core.setOutput] (name, value) and the messages passed to
    [core.setFailed], each in the order of the calls. *)
Record state := mkState {
  console : list console_line;
  outputs : list (jsstring * jsstring);
  failed : list jsstring
}.

Definition initial : state := mkState [] [] [].

(** Computations over the observable state that may throw. *)
Definition M (A : Type) : Type := state -> completion A * state.

Definition ret {A} (a : A) : M A := fun s => (Normal a, s).

Definition throw {A} (e : exn) : M A := fun s => (Throw e, s).

Definition bind {A B} (m : M A) (k : A -> M B) : M B :=
  fun s =>
    match m s with
    | (Normal a, s') => k a s'
    | (Throw e, s') => (Throw e, s')
    end.

Definition lift {A} (c : completion A) : M A := fun s => (c, s).

Declare Scope action_scope.
Delimit Scope action_scope with action.
Notation "x <- m ;; k" := (bind m (fun x => k))
  (at level 61, m at next level, right associativity) : action_scope.
Notation "m ;; k" := (bind m (fun _ => k))
  (at level 61, right associativity) : action_scope.

Definition console_write (l : console_line) : M unit :=
  fun s => (Normal tt, mkState (console s ++ [l]) (outputs s) (failed s)).

Definition core_setOutput (name value : jsstring) : M unit :=
  fun s =>
    (Normal tt, mkState (console s) (outputs s ++ [(name, value)]) (failed s)).

Definition core_setFailed (msg : jsstring) : M unit :=
  fun s => (Normal tt, mkState (console s) (outputs s) (failed s ++ [msg])).

(** [try { body } catch (error) { handler(error) }]. *)
Definition try_catch {A} (body : M A) (handler : exn -> M A) : M A :=
  fun s =>
    match body s with
    | (Normal a, s') => (Normal a, s')
    | (Throw e, s') => handler e s'
    end.

(** ** The matrix generator: [action] *)

(** [s.trim().replace(/\r?\n|\r/g, '')] on a string [s]. *)
Definition clean (s : jsstring) : jsstring := replace_line_breaks (trim s).

Section Action.

Variable rt : Runtime.

Local Open Scope action_scope.

(** The initializer of [cleanTarget],
    [target.trim().replace(/\r?\n|\r/g, '')]. Only a string has a [trim]
    method; on any other parsed value the call throws a [TypeError]. *)
Definition cleanTarget (target : json) : completion jsstring :=
  match target with
  | JString s => Normal (clean s)
  | _ => Throw (TypeError (TypeError_message rt target))
  end.

(** The loop [for (const target of napiTargets) { ... }], started with the
    current contents of [matrixItems] and [unsupportedTargets]; it returns
    both arrays as they are when the loop ends. *)
Fixpoint for_of_napiTargets (napiTargets : list json)
  (napiBuildCommand : jsstring)
  (matrixItems : list jsvalue) (unsupportedTargets : list jsstring)
  : M (list jsvalue * list jsstring) :=
  match napiTargets with
  | [] => ret (matrixItems, unsupportedTargets)
  | target :: rest =>
      cleaned <- lift (cleanTarget target) ;;
      console_write (log_processing cleaned) ;;
      match getPlatformConfig cleaned napiBuildCommand with
      | Some config =>
          console_write (log_added cleaned) ;;
          for_of_napiTargets rest napiBuildCommand
            (matrixItems ++ [config]) unsupportedTargets
      | None =>
          console_write (error_no_config cleaned) ;;
          for_of_napiTargets rest napiBuildCommand
            matrixItems (unsupportedTargets ++ [cleaned])
      end
  end.

(** [packageJson?.napi?.targets]. *)
Definition napi_targets (packageJson : json) : option json :=
  Json.optional_get (Json.optional_get (Some packageJson) (u "napi"))
    (u "targets").

(** The body of the [try] block of [action]. *)
Definition action_body (packageJsonPath napiBuildCommand : jsstring)
  : M unit :=
  if negb (existsSync rt packageJsonPath) then
    throw (Error (u "Error: " ++ packageJsonPath ++ u " not found"))
  else
    console_write (log_reading packageJsonPath) ;;
    packageJsonContent <- lift (readFileSync rt packageJsonPath) ;;
    packageJson <- lift (JSON_parse rt packageJsonContent) ;;
    let napiTargets := napi_targets packageJson in
    if negb (Json.ToBoolean napiTargets) || negb (Json.isArray napiTargets)
       || Nat.eqb (List.length (Json.elements_of napiTargets)) 0
    then throw (Error (u "Error: No napi.targets found in package.json"))
    else
      let napiTargets := Json.elements_of napiTargets in
      console_write (log_found (List.length napiTargets)) ;;
      console_write (log_raw_targets napiTargets) ;;
      r <- for_of_napiTargets napiTargets napiBuildCommand [] [] ;;
      let matrixItems := fst r in
      let unsupportedTargets := snd r in
      if Nat.ltb 0 (List.length unsupportedTargets) then
        throw (Error (u "Error: Unsupported targets found: "
                        ++ join (u ", ") unsupportedTargets))
      else
        let matrixJson := Json.stringify_matrix matrixItems in
        console_write (log_generated (List.length matrixItems)) ;;
        console_write (log_matrix matrixJson) ;;
        core_setOutput (u "matrix") matrixJson ;;
        core_setOutput (u "targets") (Json.stringify (JArray napiTargets)) ;;
        let bindingDirectory := dirname rt packageJsonPath in
        core_setOutput (u "binding-directory") bindingDirectory ;;
        console_write (log_binding_directory bindingDirectory).

(** [action({ core, packageJsonPath, napiBuildCommand })]: the [try]
    block, and the [catch] that logs, calls [core.setFailed] and rethrows. *)
Definition action (packageJsonPath napiBuildCommand : jsstring) : M unit :=
  try_catch (action_body packageJsonPath napiBuildCommand)
    (fun error =>
       console_write (error_generating (message error)) ;;
       core_setFailed (message error) ;;
       throw error).

End Action.

(** ** Vocabulary of the statements *)

(** The manifest at [packageJsonPath] exists, can be read, and parses to
    [packageJson]. *)
Definition reads (rt : Runtime) (packageJsonPath : jsstring)
  (packageJson : json) : Prop :=
  existsSync rt packageJsonPath = true
  /\ exists content,
       readFileSync rt packageJsonPath = Normal content
       /\ JSON_parse rt content = Normal packageJson.

(** The manifest declares the identifier list [ids]: its
    [napi.targets] is the array of these strings. *)
Definition declares (packageJson : json) (ids : list jsstring) : Prop :=
  napi_targets packageJson = Some (JArray (map JString ids)).

(** The strings of a list of parsed values, when all of them are strings. *)
Fixpoint strings_of (targets : list json) : option (list jsstring) :=
  match targets with
  | [] => Some []
  | JString s :: rest =>
      match strings_of rest with
      | Some ids => Some (s :: ids)
      | None => None
      end
  | _ :: _ => None
  end.

(** The registry's answer for each declared identifier, in order. *)
Definition lookup_all (napiBuildCommand : jsstring) (ids : list jsstring)
  : list (option jsvalue) :=
  map (fun id => getPlatformConfig (clean id) napiBuildCommand) ids.

Definition is_null (v : option jsvalue) : bool :=
  match v with
  | None => true
  | Some _ => false
  end.

(** The declared identifiers, cleaned, for which the registry answers
    [null]: in declaration order, one per occurrence. *)
Definition unresolved (napiBuildCommand : jsstring) (ids : list jsstring)
  : list jsstring :=
  filter (fun c => is_null (getPlatformConfig c napiBuildCommand))
    (map clean ids).

(** The declared identifiers for which the registry answers with a value,
    as the values it answers with, in declaration order. *)
Fixpoint resolved (napiBuildCommand : jsstring) (ids : list jsstring)
  : list jsvalue :=
  match ids with
  | [] => []
  | id :: rest =>
      match getPlatformConfig (clean id) napiBuildCommand with
      | Some v => v :: resolved napiBuildCommand rest
      | None => resolved napiBuildCommand rest
      end
  end.

(** The identifiers the console reports as processed, in order. *)
Fixpoint processed (lines : list console_line) : list jsstring :=
  match lines with
  | [] => []
  | log_processing c :: rest => c :: processed rest
  | _ :: rest => processed rest
  end.

(** The console lines of one run of the loop over the strings [ids]. *)
Fixpoint loop_lines (napiBuildCommand : jsstring) (ids : list jsstring)
  : list console_line :=
  match ids with
  | [] => []
  | id :: rest =>
      log_processing (clean id)
      :: (if is_null (getPlatformConfig (clean id) napiBuildCommand)
          then error_no_config (clean id)
          else log_added (clean id))
      :: loop_lines napiBuildCommand rest
  end.

(** The console lines written before the loop starts. *)
Definition announced (packageJsonPath : jsstring) (ids : list jsstring)
  : list console_line :=
  [ log_reading packageJsonPath;
    log_found (List.length ids);
    log_raw_targets (map JString ids) ].

(** The serialized Build Plan for the declared identifiers [ids]. *)
Definition plan (napiBuildCommand : jsstring) (ids : list jsstring)
  : jsstring :=
  Json.stringify_matrix (resolved napiBuildCommand ids).

(** The three outputs of a successful run, as [core.setOutput] receives
    them. *)
Definition published (rt : Runtime)
  (packageJsonPath napiBuildCommand : jsstring) (ids : list jsstring)
  : list (jsstring * jsstring) :=
  [ (u "matrix", plan napiBuildCommand ids);
    (u "targets", Json.stringify (JArray (map JString ids)));
    (u "binding-directory", dirname rt packageJsonPath) ].

(** The state a successful run ends in. *)
Definition succeeded (rt : Runtime)
  (packageJsonPath napiBuildCommand : jsstring) (ids : list jsstring)
  (s : state) : state :=
  mkState
    (console s ++ announced packageJsonPath ids
       ++ loop_lines napiBuildCommand ids
       ++ [ log_generated (List.length (resolved napiBuildCommand ids));
            log_matrix (plan napiBuildCommand ids);
            log_binding_directory (dirname rt packageJsonPath) ])
    (outputs s ++ published rt packageJsonPath napiBuildCommand ids)
    (failed s).

(** The message of the unsupported-targets failure for the list [bad]. *)
Definition unsupported_message (bad : list jsstring) : jsstring :=
  u "Error: Unsupported targets found: " ++ join (u ", ") bad.

Definition no_targets_message : jsstring :=
  u "Error: No napi.targets found in package.json".

(** ** Reading a serialized list of strings back

    A reader for the text [JSON.stringify] writes for an array of
    strings, used to show that the [targets] output determines the
    declared list. *)

Module Reader.

Definition unhex (d : N) : option N :=
  if (48 <=? d) && (d <=? 57) then Some (d - 48)
  else if (97 <=? d) && (d <=? 102) then Some (d - 87)
  else if (65 <=? d) && (d <=? 70) then Some (d - 55)
  else None.

(** The code unit a single-character escape stands for. *)
Definition unescape (x : N) : option N :=
  if x =? 98 then Some 8
  else if x =? 116 then Some 9
  else if x =? 110 then Some 10
  else if x =? 102 then Some 12
  else if x =? 114 then Some 13
  else if x =? 34 then Some 34
  else if x =? 92 then Some 92
  else if x =? 47 then Some 47
  else None.

Definition push (c : option N) (r : option (jsstring * jsstring))
  : option (jsstring * jsstring) :=
  match c, r with
  | Some c, Some (s, rest) => Some (c :: s, rest)
  | _, _ => None
  end.

Definition unicode (h1 h2 h3 h4 : N) : option N :=
  match unhex h1, unhex h2, unhex h3, unhex h4 with
  | Some a, Some b, Some c, Some d => Some (4096 * a + 256 * b + 16 * c + d)
  | _, _, _, _ => None
  end.

(** Reads the characters of a JSON string after its opening quote, up to
    the closing quote; returns the string and the text that follows. *)
Fixpoint read_string (text : jsstring) : option (jsstring * jsstring) :=
  match text with
  | [] => None
  | c :: rest =>
      if c =? 34 then Some ([], rest)
      else if c =? 92 then
        match rest with
        | [] => None
        | x :: rest1 =>
            if x =? 117 then
              match rest1 with
              | h1 :: h2 :: h3 :: h4 :: rest2 =>
                  push (unicode h1 h2 h3 h4) (read_string rest2)
              | _ => None
              end
            else push (unescape x) (read_string rest1)
        end
      else push (Some c) (read_string rest)
  end.

(** Reads [,"..."] groups up to the closing bracket. *)
Fixpoint read_more (fuel : nat) (text : jsstring) : option (list jsstring) :=
  match fuel with
  | O => None
  | S fuel' =>
      match text with
      | [c] => if c =? 93 then Some [] else None
      | c :: q :: rest =>
          if (c =? 44) && (q =? 34) then
            match read_string rest with
            | Some (s, rest') => option_map (cons s) (read_more fuel' rest')
            | None => None
            end
          else None
      | [] => None
      end
  end.

(** Reads the text of an array of strings. *)
Definition read_string_array (text : jsstring) : option (list jsstring) :=
  match text with
  | b :: c :: rest =>
      if negb (b =? 91) then None
      else if (c =? 93) && eqb rest [] then Some []
      else if c =? 34 then
        match read_string rest with
        | Some (s, rest') =>
            option_map (cons s) (read_more (List.length rest') rest')
        | None => None
        end
      else None
  | _ => None
  end.

(** The text that follows the first element in a serialized array. *)
Fixpoint tail_text (ids : list jsstring) : jsstring :=
  match ids with
  | [] => [93]
  | s :: rest => 44 :: Json.QuoteJSONString s ++ tail_text rest
  end.

End Reader.

(** ** A concrete runtime, for the examples *)

Module Example.

Definition isSlash (c : N) : bool := c =? 47.

Fixpoint dropWhile (f : N -> bool) (s : jsstring) : jsstring :=
  match s with
  | [] => []
  | c :: rest => if f c then dropWhile f rest else s
  end.

(** [path.posix.dirname]: trailing slashes and the last component are
    dropped; the first character is never scanned. *)
Definition posix_dirname (path : jsstring) : jsstring :=
  match path with
  | [] => u "."
  | c0 :: tail =>
      let hasRoot := isSlash c0 in
      let scanned := dropWhile isSlash (rev tail) in
      match dropWhile (fun c => negb (isSlash c)) scanned with
      | [] => if hasRoot then u "/" else u "."
      | _ :: before =>
          if hasRoot && Nat.eqb (List.length before) 0 then u "//"
          else c0 :: rev before
      end
  end.

(** A runtime whose file system holds one file, [file], with the text
    [content], which parses to [packageJson]. *)
Definition node (file content : jsstring) (packageJson : json) : Runtime :=
  mkRuntime
    (fun p => eqb p file)
    (fun p =>
       if eqb p file then Normal content
       else Throw (SystemError (u "ENOENT: no such file or directory")))
    (fun text =>
       if eqb text content then Normal packageJson
       else Throw (SyntaxError (u "Unexpected token")))
    posix_dirname
    (fun _ => u "target.trim is not a function").

(** A manifest [{ napi: { targets: [...] } }]. *)
Definition manifest (targets : list json) : json :=
  JObject [ (u "napi", JObject [ (u "targets", JArray targets) ]) ].

Definition package_json : jsstring := u "crates/binding/package.json".

(** The runtime in which [crates/binding/package.json] declares the
    identifiers [ids]. *)
Definition declaring (ids : list jsstring) : Runtime :=
  node package_json (Json.stringify (manifest (map JString ids)))
    (manifest (map JString ids)).

End Example.

(** ** Vocabulary of the further properties *)

Definition is_string (t : json) : bool :=
  match t with
  | JString _ => true
  | _ => false
  end.

(** The code units the regular expression of [replace] matches. *)
Definition is_line_break (c : N) : bool := (c =? LF) || (c =? CR).

Definition starts_clean (s : jsstring) : bool :=
  match s with
  | [] => true
  | c :: _ => negb (isWhiteSpaceOrLineTerminator c)
  end.

(** A string with no CR or LF in it that neither begins nor ends with
    white space or a line terminator. *)
Definition tidy (s : jsstring) : bool :=
  negb (existsb is_line_break s) && starts_clean s && starts_clean (rev s).

(** The row of the table for identifier [id], as the lookup builds it. *)
Definition row (id napiBuildCommand : jsstring) : PlatformConfig :=
  mkConfig (host_of id) id
    (napiBuildCommand ++ u " --target " ++ id ++ suffix_flags id).

(** The identifiers for which [configs[target]] is truthy: the keys of
    the table and the names inherited from [Object.prototype]. *)
Definition accepted (id : jsstring) : Prop :=
  In id supported_targets \/ In id Object_prototype_names.

Fixpoint starts_with (prefix s : jsstring) : bool :=
  match prefix, s with
  | [], _ => true
  | p :: prefix', c :: s' => (p =? c) && starts_with prefix' s'
  | _ :: _, [] => false
  end.

Definition ends_with (suffix s : jsstring) : bool :=
  starts_with (rev suffix) (rev s).

(** The message of the error thrown when the manifest does not exist. *)
Definition not_found_message (packageJsonPath : jsstring) : jsstring :=
  u "Error: " ++ packageJsonPath ++ u " not found".

(** The state a failed run ends in, when the [try] block had written
    [lines] to the console before it threw [e]. *)
Definition failed_with (s : state) (lines : list console_line) (e : exn)
  : state :=
  mkState (console s ++ lines ++ [error_generating (message e)])
    (outputs s) (failed s ++ [message e]).

(** The guard of [action] lets [napi.targets] through. *)
Definition is_nonempty_array (v : option json) : bool :=
  match v with
  | Some (JArray (_ :: _)) => true
  | _ => false
  end.

(** ** Reading a serialized Build Plan back

    A reader for the text [JSON.stringify] writes for
    [{ settings: matrixItems }] when every item is a row of the table,
    used to show that the [matrix] output determines the rows. *)

Module PlanReader.

(** Strips [prefix] from the front of [text]. *)
Fixpoint expect (prefix text : jsstring) : option jsstring :=
  match prefix with
  | [] => Some text
  | p :: prefix' =>
      match text with
      | c :: text' => if c =? p then expect prefix' text' else None
      | [] => None
      end
  end.

(** Reads ["name":"value"] and returns the value. *)
Definition read_field (name text : jsstring)
  : option (jsstring * jsstring) :=
  match expect (Json.QuoteJSONString name ++ [58; 34]) text with
  | Some t => Reader.read_string t
  | None => None
  end.

(** Reads one [{"host":...,"target":...,"build":...}]. *)
Definition read_row (text : jsstring) : option (PlatformConfig * jsstring) :=
  match expect [123] text with
  | None => None
  | Some t0 =>
  match read_field (u "host") t0 with
  | None => None
  | Some (h, t1) =>
  match expect [44] t1 with
  | None => None
  | Some t2 =>
  match read_field (u "target") t2 with
  | None => None
  | Some (t, t3) =>
  match expect [44] t3 with
  | None => None
  | Some t4 =>
  match read_field (u "build") t4 with
  | None => None
  | Some (b, t5) =>
  match expect [125] t5 with
  | None => None
  | Some t6 => Some (mkConfig h t b, t6)
  end end end end end end end.

(** Reads [,{...}] groups up to the closing [\]}]. *)
Fixpoint read_rows (fuel : nat) (text : jsstring)
  : option (list PlatformConfig) :=
  match fuel with
  | O => None
  | S fuel' =>
      match text with
      | [] => None
      | c :: rest =>
          if c =? 44 then
            match read_row rest with
            | Some (r, rest') => option_map (cons r) (read_rows fuel' rest')
            | None => None
            end
          else if eqb text [93; 125] then Some []
          else None
      end
  end.

(** Reads the text of a Build Plan. *)
Definition read_plan (text : jsstring) : option (list PlatformConfig) :=
  match expect ([123] ++ Json.QuoteJSONString (u "settings") ++ [58; 91])
          text with
  | None => None
  | Some t =>
      match t with
      | [] => None
      | c :: _ =>
          if c =? 93 then (if eqb t [93; 125] then Some [] else None)
          else
            match read_row t with
            | Some (r, rest) =>
                option_map (cons r) (read_rows (List.length rest) rest)
            | None => None
            end
      end
  end.

(** The text that follows the first row in a serialized Build Plan. *)
Fixpoint rows_tail (rows : list PlatformConfig) : jsstring :=
  match rows with
  | [] => [93; 125]
  | r :: rest => 44 :: Json.stringify_item (Config r) ++ rows_tail rest
  end.

End PlanReader.

(** ** Reading the entries of a serialized Build Plan back

    A reader for the text [JSON.stringify] writes for
    [{ settings: matrixItems }], whatever the items are, used to state
    what the published [matrix] text holds, entry by entry. *)

Module SettingsReader.

(** An element of [settings] as the published text shows it: a row, the
    [null] a function is written as, or the empty object
    [Object.prototype] is written as. *)
Inductive entry :=
| Row (c : PlatformConfig)
| Null
| EmptyObject.

(** The entry an element of [matrixItems] is published as. *)
Definition entry_of (v : jsvalue) : entry :=
  match v with
  | Config c => Row c
  | ObjectPrototypeMember name =>
      if eqb name (u "__proto__") then EmptyObject else Null
  end.

(** Reads one element of [settings]. *)
Definition read_entry (text : jsstring) : option (entry * jsstring) :=
  match PlanReader.expect (u "null") text with
  | Some rest => Some (Null, rest)
  | None =>
      match PlanReader.expect (u "{}") text with
      | Some rest => Some (EmptyObject, rest)
      | None =>
          match PlanReader.read_row text with
          | Some (c, rest) => Some (Row c, rest)
          | None => None
          end
      end
  end.

(** Reads [,<entry>] groups up to the closing [\]}]. *)
Fixpoint read_entries (fuel : nat) (text : jsstring) : option (list entry) :=
  match fuel with
  | O => None
  | S fuel' =>
      match text with
      | [] => None
      | c :: rest =>
          if c =? 44 then
            match read_entry rest with
            | Some (e, rest') => option_map (cons e) (read_entries fuel' rest')
            | None => None
            end
          else if eqb text [93; 125] then Some []
          else None
      end
  end.

(** Reads the text of a Build Plan into its entries. *)
Definition read_settings (text : jsstring) : option (list entry) :=
  match PlanReader.expect
          ([123] ++ Json.QuoteJSONString (u "settings") ++ [58; 91]) text with
  | None => None
  | Some t =>
      match t with
      | [] => None
      | c :: _ =>
          if c =? 93 then (if eqb t [93; 125] then Some [] else None)
          else
            match read_entry t with
            | Some (e, rest) =>
                option_map (cons e) (read_entries (List.length rest) rest)
            | None => None
            end
      end
  end.

(** The text that follows the first element in a serialized Build Plan. *)
Fixpoint entries_tail (items : list jsvalue) : jsstring :=
  match items with
  | [] => [93; 125]
  | v :: rest => 44 :: Json.stringify_item v ++ entries_tail rest
  end.

End SettingsReader.

(** [declared] is [id] with white space or line terminators around it. *)
Definition padded (id declared : jsstring) : Prop :=
  exists pre post,
    forallb isWhiteSpaceOrLineTerminator pre = true
    /\ forallb isWhiteSpaceOrLineTerminator post = true
    /\ declared = pre ++ id ++ post.

(** * Properties *)

(** ** Strings *)

Lemma eqb_eq (a b : jsstring) : eqb a b = true <-> a = b.
Proof.
  revert b; induction a as [|x a IH]; intros [|y b]; simpl;
    try (split; [discriminate | congruence]); try tauto.
  rewrite andb_true_iff, N.eqb_eq, IH.
  split; [intros [-> ->]; reflexivity | intros H; inversion H; auto].
Qed.

Lemma eqb_refl (a : jsstring) : eqb a a = true.
Proof. apply eqb_eq; reflexivity. Qed.

(** The scanner of [replace] deletes exactly the CR and LF code units. *)
Lemma replace_line_breaks_filter (s : jsstring) :
  replace_line_breaks s = filter (fun c => negb ((c =? LF) || (c =? CR))) s.
Proof.
  assert (G : forall n s, (List.length s <= n)%nat ->
            replace_line_breaks s
            = filter (fun c => negb ((c =? LF) || (c =? CR))) s).
  { clear s. induction n as [|n IH]; intros [|c s] Hn; simpl in *;
      try reflexivity; try lia.
    destruct (c =? LF) eqn:E1; simpl.
    - apply IH; lia.
    - destruct (c =? CR) eqn:E2; simpl.
      + destruct s as [|d s']; [reflexivity|].
        destruct (d =? LF) eqn:E3.
        * simpl. rewrite E3. simpl. apply IH. simpl in Hn. lia.
        * apply IH. lia.
      + f_equal. apply IH. lia. }
  apply (G (List.length s)). lia.
Qed.

Lemma trimStart_app_ws (pre s : jsstring) :
  forallb isWhiteSpaceOrLineTerminator pre = true ->
  trimStart (pre ++ s) = trimStart s.
Proof.
  induction pre as [|c pre IH]; simpl; [reflexivity|].
  intros H. apply andb_true_iff in H as [Hc Hp]. rewrite Hc. auto.
Qed.

(** [trimStart] returns a suffix, and strips nothing from a string that
    does not begin with white space. *)
Lemma trimStart_suffix (s : jsstring) :
  exists pre, forallb isWhiteSpaceOrLineTerminator pre = true
              /\ s = pre ++ trimStart s.
Proof.
  induction s as [|c s [pre [Hp Hs]]]; simpl.
  - exists []. auto.
  - destruct (isWhiteSpaceOrLineTerminator c) eqn:E.
    + exists (c :: pre). simpl. rewrite E, Hp. split; [reflexivity|congruence].
    + exists []. auto.
Qed.

Lemma trimStart_head (s : jsstring) (c : N) :
  hd_error (trimStart s) = Some c -> isWhiteSpaceOrLineTerminator c = false.
Proof.
  induction s as [|d s IH]; simpl; [discriminate|].
  destruct (isWhiteSpaceOrLineTerminator d) eqn:E; [exact IH|].
  simpl. intros H; inversion H; subst; exact E.
Qed.

Lemma trimStart_all_ws (s : jsstring) :
  forallb isWhiteSpaceOrLineTerminator s = true -> trimStart s = [].
Proof.
  induction s as [|c s IH]; simpl; [reflexivity|].
  intros H. apply andb_true_iff in H as [Hc Hs]. rewrite Hc. auto.
Qed.

(** [trimStart] of [s ++ post], for white space [post], is
    [trimStart s ++ post] unless [s] is all white space. *)
Lemma trimStart_app_r (s post : jsstring) :
  forallb isWhiteSpaceOrLineTerminator post = true ->
  trimStart (s ++ post)
  = match trimStart s with [] => [] | _ => trimStart s ++ post end.
Proof.
  intros Hpost. induction s as [|c s IH]; simpl.
  - apply trimStart_all_ws; assumption.
  - destruct (isWhiteSpaceOrLineTerminator c); [exact IH | reflexivity].
Qed.

Lemma forallb_rev (f : N -> bool) (l : jsstring) :
  forallb f (rev l) = forallb f l.
Proof.
  induction l as [|c l IH]; simpl; [reflexivity|].
  rewrite forallb_app, IH. simpl. rewrite andb_true_r. apply andb_comm.
Qed.

(** White space around a string does not survive [trim]. *)
Lemma trim_surrounding (pre s post : jsstring) :
  forallb isWhiteSpaceOrLineTerminator pre = true ->
  forallb isWhiteSpaceOrLineTerminator post = true ->
  trim (pre ++ s ++ post) = trim s.
Proof.
  intros Hpre Hpost. unfold trim, trimEnd.
  rewrite trimStart_app_ws by assumption.
  rewrite trimStart_app_r by assumption.
  destruct (trimStart s) as [|c t] eqn:E; [reflexivity|].
  rewrite rev_app_distr, trimStart_app_ws; [reflexivity|].
  rewrite forallb_rev; assumption.
Qed.

Lemma ws_not_line_break (c : N) :
  isWhiteSpaceOrLineTerminator c = false ->
  negb ((c =? LF) || (c =? CR)) = true.
Proof.
  unfold isWhiteSpaceOrLineTerminator, LF, CR. intros H.
  repeat (apply orb_false_iff in H as [H ?]).
  destruct (c =? 10); [discriminate|]. destruct (c =? 13); [discriminate|].
  reflexivity.
Qed.

Lemma trim_last (s : jsstring) (c : N) :
  hd_error (rev (trim s)) = Some c -> isWhiteSpaceOrLineTerminator c = false.
Proof.
  unfold trim, trimEnd. rewrite rev_involutive. apply trimStart_head.
Qed.

Lemma trim_head (s : jsstring) (c : N) :
  hd_error (trim s) = Some c -> isWhiteSpaceOrLineTerminator c = false.
Proof.
  unfold trim, trimEnd. intros H.
  destruct (trimStart_suffix (rev (trimStart s))) as [pre [_ E]].
  apply (f_equal (@rev N)) in E. rewrite rev_involutive, rev_app_distr in E.
  apply (trimStart_head s). rewrite E.
  destruct (rev (trimStart (rev (trimStart s)))); [discriminate | exact H].
Qed.

(** A cleaned identifier neither begins nor ends with white space or a
    line terminator. *)
Lemma clean_head (s : jsstring) (c : N) :
  hd_error (clean s) = Some c -> isWhiteSpaceOrLineTerminator c = false.
Proof.
  unfold clean. rewrite replace_line_breaks_filter.
  destruct (trim s) as [|d t] eqn:E; [discriminate|].
  assert (Hd : isWhiteSpaceOrLineTerminator d = false)
    by (apply (trim_head s); rewrite E; reflexivity).
  simpl. rewrite (ws_not_line_break d Hd). simpl. congruence.
Qed.

Lemma clean_last (s : jsstring) (c : N) :
  hd_error (rev (clean s)) = Some c ->
  isWhiteSpaceOrLineTerminator c = false.
Proof.
  unfold clean. rewrite replace_line_breaks_filter, <- filter_rev.
  destruct (rev (trim s)) as [|d t] eqn:E; [discriminate|].
  assert (Hd : isWhiteSpaceOrLineTerminator d = false)
    by (apply (trim_last s); rewrite E; reflexivity).
  simpl. rewrite (ws_not_line_break d Hd). simpl. congruence.
Qed.

Lemma clean_surrounding (pre s post : jsstring) :
  forallb isWhiteSpaceOrLineTerminator pre = true ->
  forallb isWhiteSpaceOrLineTerminator post = true ->
  clean (pre ++ s ++ post) = clean s.
Proof.
  intros Hpre Hpost. unfold clean. rewrite trim_surrounding by assumption.
  reflexivity.
Qed.

(** ** The serialized target list determines the list *)

Section ReadBack.

Import Reader.

Lemma unhex_hex_digit (n : N) :
  n < 16 -> unhex (Json.hex_digit n) = Some n.
Proof.
  intros Hn. unfold unhex, Json.hex_digit.
  destruct (N.ltb_spec n 10) as [H|H].
  - replace ((48 <=? 48 + n) && (48 + n <=? 57)) with true.
    + f_equal. lia.
    + symmetry. apply andb_true_iff. split; apply N.leb_le; lia.
  - replace ((48 <=? 87 + n) && (87 + n <=? 57)) with false.
    + replace ((97 <=? 87 + n) && (87 + n <=? 102)) with true.
      * f_equal. lia.
      * symmetry. apply andb_true_iff. split; apply N.leb_le; lia.
    + symmetry. apply andb_false_iff. right. apply N.leb_gt. lia.
Qed.

Lemma unicode_UnicodeEscape (c : N) :
  c < 65536 ->
  unicode (Json.hex_digit ((c / 4096) mod 16))
    (Json.hex_digit ((c / 256) mod 16))
    (Json.hex_digit ((c / 16) mod 16)) (Json.hex_digit (c mod 16))
  = Some c.
Proof.
  intros Hc. unfold unicode.
  rewrite !unhex_hex_digit by (apply N.mod_lt; discriminate).
  f_equal.
  pose proof (N.div_mod c 16 ltac:(discriminate)) as E1.
  pose proof (N.div_mod (c / 16) 16 ltac:(discriminate)) as E2.
  pose proof (N.div_mod (c / 256) 16 ltac:(discriminate)) as E3.
  assert (D2 : c / 16 / 16 = c / 256)
    by (rewrite N.Div0.div_div; reflexivity).
  assert (D3 : c / 256 / 16 = c / 4096)
    by (rewrite N.Div0.div_div; reflexivity).
  rewrite D2 in E2. rewrite D3 in E3.
  assert (H4 : c / 4096 < 16)
    by (apply N.Div0.div_lt_upper_bound; exact Hc).
  rewrite (N.mod_small (c / 4096) 16 H4). lia.
Qed.

Lemma read_raw (c : N) (rest : jsstring) :
  (c =? 34) = false -> (c =? 92) = false ->
  read_string (c :: rest) = push (Some c) (read_string rest).
Proof. intros H1 H2. simpl. rewrite H1, H2. reflexivity. Qed.

Lemma surrogate_raw (c : N) :
  Json.isLeadingSurrogate c || Json.isTrailingSurrogate c = true ->
  (c =? 34) = false /\ (c =? 92) = false /\ c < 65536.
Proof.
  unfold Json.isLeadingSurrogate, Json.isTrailingSurrogate. intros H.
  assert (55296 <= c /\ c <= 57343).
  { apply orb_true_iff in H as [H|H]; apply andb_true_iff in H as [H1 H2];
      apply N.leb_le in H1, H2; lia. }
  repeat split; try (apply N.eqb_neq); lia.
Qed.

(** The reader undoes the escape of one code unit. *)
Lemma read_escape_unit (c : N) (rest : jsstring) :
  read_string (Json.escape_unit c ++ rest) = push (Some c) (read_string rest).
Proof.
  unfold Json.escape_unit.
  destruct (c =? 8) eqn:E8; [apply N.eqb_eq in E8; subst; reflexivity|].
  destruct (c =? 9) eqn:E9; [apply N.eqb_eq in E9; subst; reflexivity|].
  destruct (c =? 10) eqn:E10; [apply N.eqb_eq in E10; subst; reflexivity|].
  destruct (c =? 12) eqn:E12; [apply N.eqb_eq in E12; subst; reflexivity|].
  destruct (c =? 13) eqn:E13; [apply N.eqb_eq in E13; subst; reflexivity|].
  destruct (c =? 34) eqn:E34; [apply N.eqb_eq in E34; subst; reflexivity|].
  destruct (c =? 92) eqn:E92; [apply N.eqb_eq in E92; subst; reflexivity|].
  destruct ((c <? 32) || Json.isLeadingSurrogate c
            || Json.isTrailingSurrogate c) eqn:Ee.
  - assert (Hc : c < 65536).
    { rewrite <- orb_assoc in Ee. apply orb_true_iff in Ee as [H|H].
      - apply N.ltb_lt in H. lia.
      - apply surrogate_raw in H. tauto. }
    unfold Json.UnicodeEscape. cbn [app read_string N.eqb Pos.eqb].
    rewrite (unicode_UnicodeEscape c Hc). reflexivity.
  - apply read_raw; assumption.
Qed.

(** The reader undoes [QuoteJSONString]. *)
Lemma read_escape_units (s rest : jsstring) :
  read_string (Json.escape_units s ++ 34 :: rest) = Some (s, rest).
Proof.
  assert (G : forall n s, (List.length s <= n)%nat ->
            read_string (Json.escape_units s ++ 34 :: rest) = Some (s, rest)).
  { clear s. induction n as [|n IH]; intros [|c t] Hn; simpl in Hn;
      try reflexivity; try lia.
    cbn [Json.escape_units].
    destruct (Json.isLeadingSurrogate c) eqn:Ec.
    - destruct t as [|d t'].
      + rewrite read_escape_unit. reflexivity.
      + destruct (Json.isTrailingSurrogate d) eqn:Ed.
        * assert (Hc : Json.isLeadingSurrogate c
                       || Json.isTrailingSurrogate c = true)
            by (rewrite Ec; reflexivity).
          assert (Hd : Json.isLeadingSurrogate d
                       || Json.isTrailingSurrogate d = true)
            by (rewrite Ed; apply orb_true_r).
          apply surrogate_raw in Hc as [Hc1 [Hc2 _]].
          apply surrogate_raw in Hd as [Hd1 [Hd2 _]].
          cbn [app]. rewrite (read_raw c _ Hc1 Hc2), (read_raw d _ Hd1 Hd2).
          rewrite IH by (simpl in Hn; lia). reflexivity.
        * rewrite <- app_assoc, read_escape_unit, IH by lia. reflexivity.
    - rewrite <- app_assoc, read_escape_unit, IH by lia. reflexivity. }
  apply (G (List.length s)). lia.
Qed.

Lemma read_more_tail_text (ids : list jsstring) :
  forall fuel, (List.length ids < fuel)%nat ->
               read_more fuel (tail_text ids) = Some ids.
Proof.
  induction ids as [|s ids IH]; intros [|fuel] H; simpl in H; try lia.
  - reflexivity.
  - cbn [tail_text]. unfold Json.QuoteJSONString.
    cbn [app read_more N.eqb Pos.eqb andb].
    rewrite <- app_assoc. cbn [app].
    rewrite read_escape_units, IH by lia. reflexivity.
Qed.

Lemma tail_text_length (ids : list jsstring) :
  (List.length ids < List.length (tail_text ids))%nat.
Proof.
  induction ids as [|s ids IH]; simpl; [lia|].
  rewrite length_app. lia.
Qed.

Lemma join_tail_text (s : jsstring) (ids : list jsstring) :
  join (u ",") (map Json.QuoteJSONString (s :: ids)) ++ u "]"
  = Json.QuoteJSONString s ++ tail_text ids.
Proof.
  revert s; induction ids as [|t ids IH]; intros s; [reflexivity|].
  change (join (u ",") (map Json.QuoteJSONString (s :: t :: ids)))
    with (Json.QuoteJSONString s ++ u ","
          ++ join (u ",") (map Json.QuoteJSONString (t :: ids))).
  rewrite <- !app_assoc, IH. reflexivity.
Qed.

(** Reading back the serialization of a list of strings gives the list. *)
Lemma read_stringify_strings (ids : list jsstring) :
  read_string_array (Json.stringify (JArray (map JString ids))) = Some ids.
Proof.
  destruct ids as [|s ids]; [reflexivity|].
  cbn [Json.stringify]. rewrite map_map.
  change (map (fun x => Json.stringify (JString x)) (s :: ids))
    with (map Json.QuoteJSONString (s :: ids)).
  rewrite join_tail_text. unfold Json.QuoteJSONString at 1.
  cbn [u map list_ascii_of_string N_of_ascii app].
  rewrite <- app_assoc.
  change (read_string_array (N_of_digits _ :: _)) with
    (match read_string (Json.escape_units s ++ 34 :: tail_text ids) with
     | Some (s0, rest') =>
         option_map (cons s0) (read_more (List.length rest') rest')
     | None => None
     end).
  rewrite read_escape_units, read_more_tail_text by apply tail_text_length.
  reflexivity.
Qed.

(** Two lists of strings with the same serialization are the same list. *)
Lemma stringify_strings_inj (ids ids' : list jsstring) :
  Json.stringify (JArray (map JString ids))
  = Json.stringify (JArray (map JString ids')) ->
  ids = ids'.
Proof.
  intros H. apply (f_equal read_string_array) in H.
  rewrite !read_stringify_strings in H. congruence.
Qed.

End ReadBack.

(** ** The loop *)

Section Loop.

Variable rt : Runtime.

Lemma strings_of_Some (targets : list json) (ids : list jsstring) :
  strings_of targets = Some ids -> targets = map JString ids.
Proof.
  revert ids; induction targets as [|t targets IH]; simpl; intros ids H.
  - inversion H; reflexivity.
  - destruct t; try discriminate.
    destruct (strings_of targets) as [ids'|]; [|discriminate].
    inversion H; subst. simpl. f_equal. auto.
Qed.

Lemma state_eta (s : state) :
  mkState (console s) (outputs s) (failed s) = s.
Proof. destruct s; reflexivity. Qed.

(** On strings the loop never throws: it visits every identifier, appends
    the resolved values to [matrixItems] and the others to
    [unsupportedTargets], and touches only the console. *)
Lemma for_of_strings (cmd : jsstring) (ids : list jsstring) :
  forall items unsup s,
    for_of_napiTargets rt (map JString ids) cmd items unsup s
    = (Normal (items ++ resolved cmd ids, unsup ++ unresolved cmd ids),
       mkState (console s ++ loop_lines cmd ids) (outputs s) (failed s)).
Proof.
  induction ids as [|id ids IH]; intros items unsup s.
  - simpl. unfold ret, unresolved. simpl.
    rewrite !app_nil_r, state_eta. reflexivity.
  - cbn [map for_of_napiTargets cleanTarget resolved loop_lines].
    unfold unresolved. cbn [map filter]. fold (unresolved cmd ids).
    unfold bind at 1. unfold lift at 1. unfold bind at 1.
    unfold console_write at 1.
    destruct (getPlatformConfig (clean id) cmd) as [v|]; cbn [is_null];
      unfold bind at 1; unfold console_write at 1; rewrite IH;
      cbn [console outputs failed]; rewrite <- !app_assoc; reflexivity.
Qed.

(** Whatever the elements are, the loop leaves the outputs and the
    failure record alone. *)
Lemma for_of_frame (cmd : jsstring) (targets : list json) :
  forall items unsup s r s',
    for_of_napiTargets rt targets cmd items unsup s = (r, s') ->
    outputs s' = outputs s /\ failed s' = failed s.
Proof.
  induction targets as [|t targets IH]; intros items unsup s r s' H.
  - inversion H; subst; auto.
  - cbn [for_of_napiTargets] in H. unfold bind at 1 in H.
    unfold lift at 1 in H.
    destruct (cleanTarget rt t) as [c|e]; [|inversion H; subst; auto].
    unfold bind at 1 in H. unfold console_write at 1 in H.
    destruct (getPlatformConfig c cmd) as [v|];
      unfold bind at 1 in H; unfold console_write at 1 in H;
      apply IH in H; simpl in H; exact H.
Qed.

(** If some element is not a string the loop throws. *)
Lemma for_of_not_strings (cmd : jsstring) (targets : list json) :
  strings_of targets = None ->
  forall items unsup s,
    exists e, fst (for_of_napiTargets rt targets cmd items unsup s) = Throw e.
Proof.
  induction targets as [|t targets IH]; simpl; [discriminate|].
  intros H items unsup s.
  unfold bind at 1. unfold lift at 1.
  destruct t as [| b | n | str | l | props]; simpl;
    try (eexists; reflexivity).
  destruct (strings_of targets); [discriminate|].
  unfold bind at 1. unfold console_write at 1.
  destruct (getPlatformConfig (clean str) cmd);
    unfold bind at 1; unfold console_write at 1; apply IH; reflexivity.
Qed.

End Loop.

(** ** The action *)

Section Generator.

Variable rt : Runtime.

Lemma napi_targets_guard (m : json) (ts : list json) :
  napi_targets m = Some (JArray ts) ->
  negb (Json.ToBoolean (napi_targets m)) || negb (Json.isArray (napi_targets m))
  || Nat.eqb (List.length (Json.elements_of (napi_targets m))) 0
  = Nat.eqb (List.length ts) 0.
Proof. intros ->. reflexivity. Qed.

(** The [try] block on a manifest that declares strings. *)
Lemma action_body_declared (path cmd : jsstring) (m : json)
  (ids : list jsstring) (s : state) :
  reads rt path m -> declares m ids -> ids <> [] ->
  action_body rt path cmd s
  = match unresolved cmd ids with
    | [] => (Normal tt, succeeded rt path cmd ids s)
    | bad =>
        (Throw (Error (unsupported_message bad)),
         mkState (console s ++ announced path ids ++ loop_lines cmd ids)
           (outputs s) (failed s))
    end.
Proof.
  intros [Hex [content [Hread Hparse]]] Hdecl Hne.
  unfold action_body. rewrite Hex. cbn [negb].
  unfold bind at 1. unfold console_write at 1.
  unfold bind at 1. unfold lift at 1. rewrite Hread.
  unfold bind at 1. unfold lift at 1. rewrite Hparse.
  rewrite (napi_targets_guard m _ Hdecl). rewrite Hdecl.
  cbn [Json.elements_of]. rewrite length_map.
  destruct ids as [|id0 ids0] eqn:Eids; [contradiction|]. rewrite <- Eids.
  replace (Nat.eqb (List.length ids) 0) with false by (subst; reflexivity).
  unfold bind at 1. unfold console_write at 1.
  unfold bind at 1. unfold console_write at 1.
  unfold bind at 1. rewrite for_of_strings.
  cbn [fst snd app console outputs failed].
  destruct (unresolved cmd ids) as [|b bad] eqn:Eu.
  - cbn [List.length Nat.ltb Nat.leb].
    unfold bind, console_write, core_setOutput, succeeded, published,
      announced, plan.
    cbn [console outputs failed]. rewrite ?length_map.
    rewrite <- ?app_assoc. reflexivity.
  - cbn [List.length Nat.ltb Nat.leb]. unfold throw, announced.
    rewrite ?length_map, <- ?app_assoc. reflexivity.
Qed.

(** A successful run on a manifest that declares only supported strings. *)
Lemma action_declared (path cmd : jsstring) (m : json)
  (ids : list jsstring) (s : state) :
  reads rt path m -> declares m ids -> ids <> [] ->
  unresolved cmd ids = [] ->
  action rt path cmd s = (Normal tt, succeeded rt path cmd ids s).
Proof.
  intros Hr Hd Hne Hu. unfold action, try_catch.
  rewrite (action_body_declared path cmd m ids s Hr Hd Hne), Hu.
  reflexivity.
Qed.

(** A run on a manifest in which some declared string does not resolve. *)
Lemma action_unsupported (path cmd : jsstring) (m : json)
  (ids : list jsstring) (s : state) :
  reads rt path m -> declares m ids -> unresolved cmd ids <> [] ->
  action rt path cmd s
  = (Throw (Error (unsupported_message (unresolved cmd ids))),
     mkState
       (console s ++ announced path ids ++ loop_lines cmd ids
          ++ [error_generating (unsupported_message (unresolved cmd ids))])
       (outputs s)
       (failed s ++ [unsupported_message (unresolved cmd ids)])).
Proof.
  intros Hr Hd Hu. unfold action, try_catch.
  assert (Hne : ids <> []) by (intros ->; apply Hu; reflexivity).
  rewrite (action_body_declared path cmd m ids s Hr Hd Hne).
  destruct (unresolved cmd ids) as [|b bad]; [contradiction|].
  unfold bind, console_write, core_setFailed, throw.
  cbn [console outputs failed message]. rewrite <- !app_assoc. reflexivity.
Qed.

(** Every run of the [try] block either throws, with the outputs and the
    failure record as they were, or ran on a readable manifest that
    declares a non-empty list of strings, all of which resolve. *)
Lemma action_body_cases (path cmd : jsstring) (s : state) :
  (exists e s', action_body rt path cmd s = (Throw e, s')
                /\ outputs s' = outputs s /\ failed s' = failed s)
  \/ (exists m ids, reads rt path m /\ declares m ids /\ ids <> []
                    /\ unresolved cmd ids = []).
Proof.
  destruct (existsSync rt path) eqn:Hex.
  2: { left. unfold action_body. rewrite Hex. cbn [negb]. unfold throw.
       eexists; eexists; split; [reflexivity | auto]. }
  destruct (readFileSync rt path) as [content|e] eqn:Hread.
  2: { left. unfold action_body. rewrite Hex. cbn [negb].
       unfold bind at 1. unfold console_write at 1.
       unfold bind at 1. unfold lift at 1. rewrite Hread.
       eexists; eexists; split; [reflexivity | auto]. }
  destruct (JSON_parse rt content) as [m|e] eqn:Hparse.
  2: { left. unfold action_body. rewrite Hex. cbn [negb].
       unfold bind at 1. unfold console_write at 1.
       unfold bind at 1. unfold lift at 1. rewrite Hread.
       unfold bind at 1. unfold lift at 1. rewrite Hparse.
       eexists; eexists; split; [reflexivity | auto]. }
  assert (Hr : reads rt path m) by (split; [assumption | eauto]).
  assert (Hguard : forall c : bool,
    negb (Json.ToBoolean (napi_targets m))
    || negb (Json.isArray (napi_targets m))
    || Nat.eqb (List.length (Json.elements_of (napi_targets m))) 0 = true ->
    exists e s', action_body rt path cmd s = (Throw e, s')
                 /\ outputs s' = outputs s /\ failed s' = failed s).
  { intros _ Hg. unfold action_body. rewrite Hex. cbn [negb].
    unfold bind at 1. unfold console_write at 1.
    unfold bind at 1. unfold lift at 1. rewrite Hread.
    unfold bind at 1. unfold lift at 1. rewrite Hparse.
    rewrite Hg. unfold throw.
    eexists; eexists; split; [reflexivity | auto]. }
  destruct (napi_targets m) as [[| b | n | str | ts | props]|] eqn:Ht;
    try (left; apply (Hguard true); cbn; try reflexivity;
         rewrite ?orb_true_r; reflexivity).
  destruct ts as [|t ts'].
  { left; apply (Hguard true); reflexivity. }
  clear Hguard.
  destruct (strings_of (t :: ts')) as [ids|] eqn:Hs.
  - apply strings_of_Some in Hs.
    assert (Hd : declares m ids) by (unfold declares; congruence).
    assert (Hne : ids <> []) by (intros ->; discriminate).
    destruct (unresolved cmd ids) as [|b bad] eqn:Hu.
    + right. exists m, ids. repeat (split; [assumption|]). assumption.
    + left. rewrite (action_body_declared path cmd m ids s Hr Hd Hne), Hu.
      eexists; eexists; split; [reflexivity | auto].
  - left. unfold action_body. rewrite Hex. cbn [negb].
    unfold bind at 1. unfold console_write at 1.
    unfold bind at 1. unfold lift at 1. rewrite Hread.
    unfold bind at 1. unfold lift at 1. rewrite Hparse.
    rewrite Ht. cbn [Json.ToBoolean Json.isArray Json.elements_of negb orb
                     List.length Nat.eqb].
    unfold bind at 1. unfold console_write at 1.
    unfold bind at 1. unfold console_write at 1.
    unfold bind at 1.
    match goal with |- context [for_of_napiTargets rt ?l cmd ?i ?n ?s0] =>
      destruct (for_of_not_strings rt cmd l Hs i n s0) as [e He];
      destruct (for_of_napiTargets rt l cmd i n s0) as [r s3] eqn:Hloop
    end.
    simpl in He. subst r.
    apply for_of_frame in Hloop. simpl in Hloop.
    eexists; eexists; split; [reflexivity | exact Hloop].
Qed.

(** A failed run publishes nothing and records its message once. *)
Lemma action_throw_frame (path cmd : jsstring) (s s' : state) (e : exn) :
  action rt path cmd s = (Throw e, s') ->
  outputs s' = outputs s /\ failed s' = failed s ++ [message e].
Proof.
  unfold action, try_catch.
  destruct (action_body_cases path cmd s)
    as [[e0 [s0 [Hb [Ho Hf]]]] | [m [ids [Hr [Hd [Hne Hu]]]]]].
  - rewrite Hb. unfold bind, console_write, core_setFailed, throw.
    cbn [console outputs failed]. intros H; inversion H; subst e s'.
    cbn [console outputs failed]. rewrite Ho, Hf. auto.
  - rewrite (action_body_declared path cmd m ids s Hr Hd Hne), Hu.
    discriminate.
Qed.

(** A run that returns ran on a readable manifest declaring a non-empty
    list of strings, all of which resolve. *)
Lemma action_normal (path cmd : jsstring) (s s' : state) (r : unit) :
  action rt path cmd s = (Normal r, s') ->
  exists m ids, reads rt path m /\ declares m ids /\ ids <> []
                /\ unresolved cmd ids = []
                /\ s' = succeeded rt path cmd ids s.
Proof.
  intros H.
  destruct (action_body_cases path cmd s)
    as [[e0 [s0 [Hb [Ho Hf]]]] | [m [ids [Hr [Hd [Hne Hu]]]]]].
  - unfold action, try_catch in H. rewrite Hb in H.
    unfold bind, console_write, core_setFailed, throw in H. discriminate.
  - exists m, ids. do 4 (split; [assumption|]).
    rewrite (action_declared path cmd m ids s Hr Hd Hne Hu) in H.
    inversion H; reflexivity.
Qed.

End Generator.

(** ** The registry *)

Lemma own_property_None {A : Type} (props : list (jsstring * A))
  (key : jsstring) :
  ~ In key (map fst props) -> own_property props key = None.
Proof.
  induction props as [|[k v] props IH]; simpl; [reflexivity|].
  intros H. destruct (eqb k key) eqn:E.
  - apply eqb_eq in E. exfalso. apply H. left. exact E.
  - apply IH. intros Hin. apply H. right. exact Hin.
Qed.

Lemma keys_of_configs (cmd : jsstring) :
  map fst (configs cmd) = supported_targets.
Proof. reflexivity. Qed.

Lemma existsb_eqb_In (key : jsstring) (names : list jsstring) :
  existsb (eqb key) names = true <-> In key names.
Proof.
  rewrite existsb_exists. split.
  - intros [x [Hin E]]. apply eqb_eq in E. subst. exact Hin.
  - intros Hin. exists key. split; [exact Hin | apply eqb_refl].
Qed.

(** Every row of the table, as the lookup returns it. *)
Lemma registry_row (id cmd : jsstring) :
  In id supported_targets ->
  getPlatformConfig id cmd
  = Some (Config (mkConfig (host_of id) id
                    (cmd ++ u " --target " ++ id ++ suffix_flags id))).
Proof.
  intros H. vm_compute in H.
  repeat (destruct H as [<-|H]; [vm_compute; reflexivity|]).
  destruct H.
Qed.

(** A name inherited from [Object.prototype] reads as that member. *)
Lemma registry_inherited (id cmd : jsstring) :
  In id Object_prototype_names ->
  getPlatformConfig id cmd = Some (ObjectPrototypeMember id).
Proof.
  intros H. vm_compute in H.
  repeat (destruct H as [<-|H]; [vm_compute; reflexivity|]).
  destruct H.
Qed.

(** The lookup answers [null] exactly for the identifiers that are
    neither a key of the table nor a name inherited from
    [Object.prototype]. *)
Lemma registry_null (id cmd : jsstring) :
  getPlatformConfig id cmd = None
  <-> ~ In id supported_targets /\ ~ In id Object_prototype_names.
Proof.
  split.
  - intros H. split; intros Hin.
    + rewrite (registry_row id cmd Hin) in H. discriminate.
    + rewrite (registry_inherited id cmd Hin) in H. discriminate.
  - intros [H1 H2]. unfold getPlatformConfig, get_property.
    rewrite own_property_None by (rewrite keys_of_configs; exact H1).
    destruct (existsb (eqb id) Object_prototype_names) eqn:E;
      [|reflexivity].
    apply existsb_eqb_In in E. contradiction.
Qed.

(** C5. Flag composition: resolving [x86_64-unknown-linux-gnu] with the
    base command [pnpm build] yields the build invocation
    [pnpm build --target x86_64-unknown-linux-gnu --use-napi-cross]; and
    for every identifier of the table and every base command, the build
    invocation is the base command, then [ --target <identifier>], then
    the identifier's suffix flags, which are fixed data: no flag at all,
    [ --use-napi-cross], [ -x], [ --use-cross], or [ --use-cross] followed
    by the build-std flags. *)
Theorem flag_composition :
  getPlatformConfig (u "x86_64-unknown-linux-gnu") (u "pnpm build")
  = Some (Config
            (mkConfig (u "ubuntu-22.04") (u "x86_64-unknown-linux-gnu")
               (u "pnpm build --target x86_64-unknown-linux-gnu --use-napi-cross")))
  /\ forall id cmd : jsstring,
       In id supported_targets ->
       (exists c, getPlatformConfig id cmd = Some (Config c)
                  /\ build c = cmd ++ u " --target " ++ id ++ suffix_flags id)
       /\ In (suffix_flags id)
            [ []; u " --use-napi-cross"; u " -x"; u " --use-cross";
              u " --use-cross -- -Zbuild-std=core,std,alloc,proc_macro,panic_abort" ].
Proof.
  split; [vm_compute; reflexivity|].
  intros id cmd H. split.
  - eexists. split; [apply registry_row; exact H | reflexivity].
  - vm_compute in H.
    repeat (destruct H as [<-|H]; [vm_compute; tauto|]).
    destruct H.
Qed.

Lemma flag_composition_witness :
  In (u "aarch64-unknown-freebsd") supported_targets
  /\ exists c,
       getPlatformConfig (u "aarch64-unknown-freebsd") (u "npm run build --")
       = Some (Config c)
       /\ build c
          = u "npm run build -- --target aarch64-unknown-freebsd --use-cross -- -Zbuild-std=core,std,alloc,proc_macro,panic_abort".
Proof.
  assert (H : In (u "aarch64-unknown-freebsd") supported_targets)
    by (vm_compute; tauto).
  split; [exact H|].
  exact (proj1 (proj2 flag_composition (u "aarch64-unknown-freebsd")
                  (u "npm run build --") H)).
Defined.

(** C10. For every identifier of the table and every base command the
    lookup returns a row whose [target] is the identifier itself and
    whose [host] is [macos-latest], [windows-latest] or [ubuntu-22.04];
    each of the three hosts occurs in the table. *)
Theorem registry_hosts_and_targets (id cmd : jsstring) :
  In id supported_targets ->
  (exists c, getPlatformConfig id cmd = Some (Config c)
             /\ target c = id
             /\ In (host c)
                  [u "macos-latest"; u "windows-latest"; u "ubuntu-22.04"])
  /\ incl [u "macos-latest"; u "windows-latest"; u "ubuntu-22.04"]
          (map host_of supported_targets).
Proof.
  intros H. split.
  - eexists. split; [apply registry_row; exact H|].
    split; [reflexivity|]. cbn [host].
    vm_compute in H.
    repeat (destruct H as [<-|H]; [vm_compute; tauto|]).
    destruct H.
  - intros h Hh. vm_compute in Hh. vm_compute.
    repeat (destruct Hh as [<-|Hh]; [tauto|]). destruct Hh.
Qed.

Lemma registry_hosts_and_targets_witness :
  In (u "i686-pc-windows-msvc") supported_targets
  /\ exists c,
       getPlatformConfig (u "i686-pc-windows-msvc") (u "pnpm build")
       = Some (Config c)
       /\ target c = u "i686-pc-windows-msvc"
       /\ In (host c)
            [u "macos-latest"; u "windows-latest"; u "ubuntu-22.04"].
Proof.
  assert (H : In (u "i686-pc-windows-msvc") supported_targets)
    by (vm_compute; tauto).
  split; [exact H|].
  exact (proj1 (registry_hosts_and_targets (u "i686-pc-windows-msvc")
                  (u "pnpm build") H)).
Defined.

(** C7. The lookup does not answer [null] for every identifier outside
    the table: [constructor] is not a key of the table, yet
    [getPlatformConfig("constructor", "pnpm build")] is the function
    inherited from [Object.prototype], and a manifest declaring it is
    accepted, with the Build Plan [{"settings":[null]}]. *)
Theorem lookup_of_inherited_name :
  ~ In (u "constructor") supported_targets
  /\ getPlatformConfig (u "constructor") (u "pnpm build")
     = Some (ObjectPrototypeMember (u "constructor"))
  /\ fst (action (Example.declaring [u "constructor"]) Example.package_json
            (u "pnpm build") initial)
     = Normal tt
  /\ outputs (snd (action (Example.declaring [u "constructor"])
                     Example.package_json (u "pnpm build") initial))
     = [ (u "matrix", jq "{'settings':[null]}");
         (u "targets", jq "['constructor']");
         (u "binding-directory", u "crates/binding") ].
Proof.
  split.
  - vm_compute. intros H.
    repeat (destruct H as [H|H]; [discriminate H|]). exact H.
  - vm_compute. repeat split.
Qed.

(** ** Generation *)

Lemma reads_functional (rt : Runtime) (path : jsstring) (m m' : json) :
  reads rt path m -> reads rt path m' -> m = m'.
Proof.
  intros [_ [c [Hr Hp]]] [_ [c' [Hr' Hp']]]. congruence.
Qed.

Lemma JString_map_inj (a b : list jsstring) :
  map JString a = map JString b -> a = b.
Proof.
  revert b; induction a as [|x a IH]; intros [|y b] H; simpl in H;
    try discriminate; [reflexivity|].
  inversion H; subst. f_equal. auto.
Qed.

Lemma declares_functional (m : json) (ids ids' : list jsstring) :
  declares m ids -> declares m ids' -> ids = ids'.
Proof.
  unfold declares. intros H H'. rewrite H in H'.
  inversion H'. apply JString_map_inj. assumption.
Qed.

Lemma unresolved_nil (cmd : jsstring) (ids : list jsstring) :
  unresolved cmd ids = [] <->
  Forall (fun id => getPlatformConfig (clean id) cmd <> None) ids.
Proof.
  unfold unresolved. induction ids as [|id ids IH]; simpl.
  - split; [constructor | reflexivity].
  - destruct (getPlatformConfig (clean id) cmd) as [v|] eqn:E; simpl.
    + rewrite IH. split; intros H.
      * constructor; [rewrite E; discriminate | exact H].
      * inversion H; assumption.
    + split; [discriminate|]. intros H. inversion H; subst.
      rewrite E in *. congruence.
Qed.

Lemma resolved_lookup_all (cmd : jsstring) (ids : list jsstring) :
  unresolved cmd ids = [] -> map Some (resolved cmd ids) = lookup_all cmd ids.
Proof.
  unfold unresolved, lookup_all. induction ids as [|id ids IH]; simpl;
    [reflexivity|].
  destruct (getPlatformConfig (clean id) cmd) as [v|]; simpl;
    [|discriminate].
  intros H. f_equal. auto.
Qed.

Lemma processed_app (a b : list console_line) :
  processed (a ++ b) = processed a ++ processed b.
Proof.
  induction a as [|l a IH]; simpl; [reflexivity|].
  destruct l; simpl; rewrite ?IH; reflexivity.
Qed.

Lemma processed_loop_lines (cmd : jsstring) (ids : list jsstring) :
  processed (loop_lines cmd ids) = map clean ids.
Proof.
  induction ids as [|id ids IH]; simpl; [reflexivity|].
  destruct (is_null (getPlatformConfig (clean id) cmd)); simpl;
    rewrite IH; reflexivity.
Qed.

(** Whatever the run, the outputs change only when it returns, and then
    by exactly the three outputs of the declared, fully resolved list. *)
Lemma outputs_only_on_success (rt : Runtime) (path cmd : jsstring)
  (s : state) :
  outputs (snd (action rt path cmd s)) <> outputs s ->
  fst (action rt path cmd s) = Normal tt
  /\ exists m ids,
       reads rt path m /\ declares m ids
       /\ Forall (fun id => getPlatformConfig (clean id) cmd <> None) ids
       /\ outputs (snd (action rt path cmd s))
          = outputs s ++ published rt path cmd ids.
Proof.
  destruct (action rt path cmd s) as [[[]|e] s'] eqn:Ha; cbn [fst snd].
  - intros _. split; [reflexivity|].
    destruct (action_normal rt path cmd s s' tt Ha)
      as [m [ids [Hr [Hd [_ [Hu ->]]]]]].
    exists m, ids. repeat (split; [assumption|]).
    split; [apply unresolved_nil; assumption | reflexivity].
  - intros H. destruct (action_throw_frame rt path cmd s s' e Ha) as [Ho _].
    contradiction.
Qed.

(** Atomicity with respect to the lookup's own answers: a run publishes
    outputs only when it returns, and then the lookup answered a value
    for every declared identifier and the outputs are exactly the three of
    the whole declared list; when the manifest declares at least one
    identifier for which the lookup answers [null], the run fails, passes
    the failure's message to [core.setFailed], and publishes none of the
    three outputs, whatever else is declared. *)
Theorem generation_is_atomic :
  (forall (rt : Runtime) (path cmd : jsstring) (s : state),
      outputs (snd (action rt path cmd s)) <> outputs s ->
      fst (action rt path cmd s) = Normal tt
      /\ exists m ids,
           reads rt path m /\ declares m ids
           /\ Forall (fun id => getPlatformConfig (clean id) cmd <> None) ids
           /\ outputs (snd (action rt path cmd s))
              = outputs s
                ++ [ (u "matrix", plan cmd ids);
                     (u "targets", Json.stringify (JArray (map JString ids)));
                     (u "binding-directory", dirname rt path) ])
  /\ (forall (rt : Runtime) (path cmd : jsstring) (s : state) (m : json)
             (targets : list json) (id : jsstring),
        reads rt path m ->
        napi_targets m = Some (JArray targets) ->
        In (JString id) targets ->
        getPlatformConfig (clean id) cmd = None ->
        (exists e, fst (action rt path cmd s) = Throw e
                   /\ failed (snd (action rt path cmd s))
                      = failed s ++ [message e])
        /\ outputs (snd (action rt path cmd s)) = outputs s).
Proof.
  split; [exact outputs_only_on_success|].
  intros rt path cmd s m targets id Hr Ht Hin Hnull.
  destruct (action rt path cmd s) as [[[]|e] s'] eqn:Ha; cbn [fst snd].
  - exfalso.
    destruct (action_normal rt path cmd s s' tt Ha)
      as [m' [ids [Hr' [Hd [_ [Hu _]]]]]].
    rewrite <- (reads_functional rt path m m' Hr Hr') in Hd.
    unfold declares in Hd. rewrite Ht in Hd. inversion Hd; subst targets.
    apply in_map_iff in Hin as [id' [E Hin]]. inversion E; subst id'.
    apply unresolved_nil in Hu. rewrite Forall_forall in Hu.
    exact (Hu id Hin Hnull).
  - destruct (action_throw_frame rt path cmd s s' e Ha) as [Ho Hf].
    split; [exists e; auto | exact Ho].
Qed.

Lemma generation_is_atomic_witness :
  let rt := Example.declaring [u "x86_64-apple-darwin"; u "bogus"] in
  (exists e, fst (action rt Example.package_json (u "pnpm build") initial)
             = Throw e
             /\ failed (snd (action rt Example.package_json (u "pnpm build")
                               initial))
                = failed initial ++ [message e])
  /\ outputs (snd (action rt Example.package_json (u "pnpm build") initial))
     = outputs initial.
Proof.
  intros rt.
  apply (proj2 generation_is_atomic rt Example.package_json (u "pnpm build")
           initial
           (Example.manifest
              (map JString [u "x86_64-apple-darwin"; u "bogus"]))
           (map JString [u "x86_64-apple-darwin"; u "bogus"])
           (u "bogus")).
  - split; [vm_compute; reflexivity|].
    eexists. split; vm_compute; reflexivity.
  - vm_compute; reflexivity.
  - simpl. right. left. reflexivity.
  - vm_compute; reflexivity.
Defined.

(** Aggregation with respect to the lookup's own answers: on a manifest
    that declares the strings [ids], for some of which the lookup answers
    [null], the loop processes every identifier, and the run fails with
    the message [Error: Unsupported targets found: ] followed by all the
    identifiers (cleaned) the lookup answered [null] for, in declaration
    order, one per occurrence, joined with a comma and a space; for the
    declared identifiers [bogus-a], [x86_64-apple-darwin], [bogus-b] the
    message is [Error: Unsupported targets found: bogus-a, bogus-b]. *)
Theorem unsupported_targets_all_reported :
  (forall (rt : Runtime) (path cmd : jsstring) (s : state) (m : json)
          (ids : list jsstring),
      reads rt path m -> declares m ids -> unresolved cmd ids <> [] ->
      fst (action rt path cmd s)
      = Throw (Error (u "Error: Unsupported targets found: "
                        ++ join (u ", ") (unresolved cmd ids)))
      /\ failed (snd (action rt path cmd s))
         = failed s ++ [u "Error: Unsupported targets found: "
                          ++ join (u ", ") (unresolved cmd ids)]
      /\ outputs (snd (action rt path cmd s)) = outputs s
      /\ processed (console (snd (action rt path cmd s)))
         = processed (console s) ++ map clean ids)
  /\ (forall (rt : Runtime) (path cmd : jsstring) (s : state) (m : json),
        reads rt path m ->
        declares m [u "bogus-a"; u "x86_64-apple-darwin"; u "bogus-b"] ->
        fst (action rt path cmd s)
        = Throw (Error
                   (u "Error: Unsupported targets found: bogus-a, bogus-b"))).
Proof.
  assert (G : forall rt path cmd s m ids,
    reads rt path m -> declares m ids -> unresolved cmd ids <> [] ->
    fst (action rt path cmd s)
    = Throw (Error (unsupported_message (unresolved cmd ids)))
    /\ failed (snd (action rt path cmd s))
       = failed s ++ [unsupported_message (unresolved cmd ids)]
    /\ outputs (snd (action rt path cmd s)) = outputs s
    /\ processed (console (snd (action rt path cmd s)))
       = processed (console s) ++ map clean ids).
  { intros rt path cmd s m ids Hr Hd Hu.
    rewrite (action_unsupported rt path cmd m ids s Hr Hd Hu).
    cbn [fst snd console outputs failed].
    repeat (split; [reflexivity|]).
    rewrite !processed_app, processed_loop_lines. cbn [processed announced].
    rewrite app_nil_r. reflexivity. }
  split; [exact G|].
  intros rt path cmd s m Hr Hd.
  assert (Hu : unresolved cmd [u "bogus-a"; u "x86_64-apple-darwin"; u "bogus-b"]
               = [u "bogus-a"; u "bogus-b"]) by (vm_compute; reflexivity).
  destruct (G rt path cmd s m _ Hr Hd) as [-> _].
  - rewrite Hu. discriminate.
  - rewrite Hu. vm_compute. reflexivity.
Qed.

Lemma unsupported_targets_all_reported_witness :
  let rt := Example.declaring [u " bogus-b"; u "riscv64gc-unknown-linux-gnu";
                               u "bogus-a"; u "bogus-b "] in
  fst (action rt Example.package_json (u "pnpm build") initial)
  = Throw (Error
             (u "Error: Unsupported targets found: bogus-b, bogus-a, bogus-b"))
  /\ processed (console (snd (action rt Example.package_json (u "pnpm build")
                                initial)))
     = [u "bogus-b"; u "riscv64gc-unknown-linux-gnu"; u "bogus-a"; u "bogus-b"].
Proof.
  intros rt.
  assert (Hr : reads rt Example.package_json
                 (Example.manifest
                    (map JString [u " bogus-b"; u "riscv64gc-unknown-linux-gnu";
                                  u "bogus-a"; u "bogus-b "]))).
  { split; [vm_compute; reflexivity|].
    eexists. split; vm_compute; reflexivity. }
  assert (Hd : declares
                 (Example.manifest
                    (map JString [u " bogus-b"; u "riscv64gc-unknown-linux-gnu";
                                  u "bogus-a"; u "bogus-b "]))
                 [u " bogus-b"; u "riscv64gc-unknown-linux-gnu";
                  u "bogus-a"; u "bogus-b "])
    by (vm_compute; reflexivity).
  assert (Hu : unresolved (u "pnpm build")
                 [u " bogus-b"; u "riscv64gc-unknown-linux-gnu";
                  u "bogus-a"; u "bogus-b "] <> [])
    by (vm_compute; discriminate).
  destruct (proj1 unsupported_targets_all_reported rt Example.package_json
              (u "pnpm build") initial _ _ Hr Hd Hu) as [H1 [_ [_ H4]]].
  split; [exact H1 | exact H4].
Defined.

(** C3. End-to-end example: for the declared targets
    [x86_64-apple-darwin], [aarch64-apple-darwin] and the base command
    [pnpm build --release], the run returns, nothing is reported as
    failed, and the three outputs are the Build Plan with the two
    [macos-latest] entries, the raw target list, and the directory of the
    manifest path. *)
Theorem end_to_end_example (rt : Runtime) (path : jsstring) (s : state)
  (m : json) :
  reads rt path m ->
  declares m [u "x86_64-apple-darwin"; u "aarch64-apple-darwin"] ->
  fst (action rt path (u "pnpm build --release") s) = Normal tt
  /\ outputs (snd (action rt path (u "pnpm build --release") s))
     = outputs s
       ++ [ (u "matrix",
             jq "{'settings':[{'host':'macos-latest','target':'x86_64-apple-darwin','build':'pnpm build --release --target x86_64-apple-darwin'},{'host':'macos-latest','target':'aarch64-apple-darwin','build':'pnpm build --release --target aarch64-apple-darwin'}]}");
            (u "targets", jq "['x86_64-apple-darwin','aarch64-apple-darwin']");
            (u "binding-directory", dirname rt path) ]
  /\ failed (snd (action rt path (u "pnpm build --release") s)) = failed s.
Proof.
  intros Hr Hd.
  rewrite (action_declared rt path (u "pnpm build --release") m _ s Hr Hd);
    [|discriminate | vm_compute; reflexivity].
  cbn [fst snd succeeded outputs failed].
  split; [reflexivity|]. split; [|reflexivity].
  f_equal; vm_compute; reflexivity.
Qed.

Lemma end_to_end_example_witness :
  let rt := Example.declaring
              [u "x86_64-apple-darwin"; u "aarch64-apple-darwin"] in
  fst (action rt Example.package_json (u "pnpm build --release") initial)
  = Normal tt
  /\ outputs (snd (action rt Example.package_json (u "pnpm build --release")
                     initial))
     = [ (u "matrix",
          jq "{'settings':[{'host':'macos-latest','target':'x86_64-apple-darwin','build':'pnpm build --release --target x86_64-apple-darwin'},{'host':'macos-latest','target':'aarch64-apple-darwin','build':'pnpm build --release --target aarch64-apple-darwin'}]}");
         (u "targets", jq "['x86_64-apple-darwin','aarch64-apple-darwin']");
         (u "binding-directory", u "crates/binding") ].
Proof.
  intros rt.
  assert (Hr : reads rt Example.package_json
                 (Example.manifest
                    (map JString
                       [u "x86_64-apple-darwin"; u "aarch64-apple-darwin"]))).
  { split; [vm_compute; reflexivity|].
    eexists. split; vm_compute; reflexivity. }
  assert (Hd : declares
                 (Example.manifest
                    (map JString
                       [u "x86_64-apple-darwin"; u "aarch64-apple-darwin"]))
                 [u "x86_64-apple-darwin"; u "aarch64-apple-darwin"])
    by (vm_compute; reflexivity).
  destruct (end_to_end_example rt Example.package_json initial _ Hr Hd)
    as [H1 [H2 _]].
  split; [exact H1 | exact H2].
Defined.

(** C9. Raw targets and manifest directory: when a run returns, the
    [targets] output is the serialization of the declared list itself,
    element by element as read from the manifest and not of the cleaned
    identifiers the plan was built from; that text reads back as the
    declared list, so no other list of strings serializes to it; and the
    [binding-directory] output is [path.dirname] of the manifest path. *)
Theorem raw_targets_verbatim (rt : Runtime) (path cmd : jsstring)
  (s s' : state) :
  action rt path cmd s = (Normal tt, s') ->
  exists (m : json) (ids : list jsstring),
    reads rt path m /\ declares m ids
    /\ outputs s'
       = outputs s
         ++ [ (u "matrix", Json.stringify_matrix (resolved cmd ids));
              (u "targets", Json.stringify (JArray (map JString ids)));
              (u "binding-directory", dirname rt path) ]
    /\ Reader.read_string_array (Json.stringify (JArray (map JString ids)))
       = Some ids
    /\ forall ids' : list jsstring,
         Json.stringify (JArray (map JString ids'))
         = Json.stringify (JArray (map JString ids)) ->
         ids' = ids.
Proof.
  intros Ha.
  destruct (action_normal rt path cmd s s' tt Ha)
    as [m [ids [Hr [Hd [_ [Hu ->]]]]]].
  exists m, ids. repeat (split; [assumption|]).
  split; [reflexivity|]. split; [apply read_stringify_strings|].
  intros ids'. apply stringify_strings_inj.
Qed.

Lemma raw_targets_verbatim_witness :
  let rt := Example.declaring [u " x86_64-apple-darwin" ++ [CR; LF]] in
  outputs (snd (action rt Example.package_json (u "pnpm build") initial))
  = [ (u "matrix",
       jq "{'settings':[{'host':'macos-latest','target':'x86_64-apple-darwin','build':'pnpm build --target x86_64-apple-darwin'}]}");
      (u "targets", jq "[' x86_64-apple-darwin\r\n']");
      (u "binding-directory", u "crates/binding") ].
Proof.
  intros rt.
  destruct (raw_targets_verbatim rt Example.package_json (u "pnpm build")
              initial
              (snd (action rt Example.package_json (u "pnpm build") initial)))
    as [m [ids [Hr [Hd [Ho _]]]]].
  - vm_compute. reflexivity.
  - assert (Hr0 : reads rt Example.package_json
                    (Example.manifest
                       (map JString [u " x86_64-apple-darwin" ++ [CR; LF]]))).
    { split; [vm_compute; reflexivity|].
      eexists. split; vm_compute; reflexivity. }
    rewrite <- (reads_functional _ _ _ _ Hr0 Hr) in Hd.
    assert (E : ids = [u " x86_64-apple-darwin" ++ [CR; LF]]).
    { apply (declares_functional _ _ _ Hd). vm_compute. reflexivity. }
    rewrite Ho, E. vm_compute. reflexivity.
Defined.

Lemma resolved_clean_ext (cmd : jsstring) (ids ids' : list jsstring) :
  map clean ids = map clean ids' -> resolved cmd ids = resolved cmd ids'.
Proof.
  revert ids'; induction ids as [|id ids IH]; intros [|id' ids'] H;
    simpl in H; try discriminate; [reflexivity|].
  inversion H as [[E1 E2]]. simpl. rewrite E1, (IH ids' E2). reflexivity.
Qed.

(** A run on a readable manifest whose [napi.targets] fails the guard. *)
Lemma action_no_targets (rt : Runtime) (path cmd : jsstring) (s : state)
  (m : json) :
  reads rt path m ->
  negb (Json.ToBoolean (napi_targets m))
  || negb (Json.isArray (napi_targets m))
  || Nat.eqb (List.length (Json.elements_of (napi_targets m))) 0 = true ->
  action rt path cmd s
  = (Throw (Error no_targets_message),
     mkState
       (console s ++ [log_reading path; error_generating no_targets_message])
       (outputs s) (failed s ++ [no_targets_message])).
Proof.
  intros [Hex [content [Hread Hparse]]] Hg.
  assert (Hb : action_body rt path cmd s
               = (Throw (Error no_targets_message),
                  mkState (console s ++ [log_reading path]) (outputs s)
                    (failed s))).
  { unfold action_body. rewrite Hex. cbn [negb].
    unfold bind at 1. unfold console_write at 1.
    unfold bind at 1. unfold lift at 1. rewrite Hread.
    unfold bind at 1. unfold lift at 1. rewrite Hparse.
    rewrite Hg. reflexivity. }
  unfold action, try_catch. rewrite Hb.
  unfold bind, console_write, core_setFailed, throw.
  cbn [console outputs failed message]. rewrite <- app_assoc. reflexivity.
Qed.

(** C8. Missing-field handling: when the manifest parses but its
    [napi.targets] is missing, is not an array, or is the empty array, the
    run fails with the error [Error: No napi.targets found in
    package.json], reported through [core.setFailed], and publishes
    nothing; the manifest [{"napi": {}}] is such a manifest; and that
    message is never the message of an unsupported-targets failure. *)
Theorem no_targets_declared :
  (forall (rt : Runtime) (path cmd : jsstring) (s : state) (m : json),
      reads rt path m ->
      napi_targets m = None
      \/ Json.isArray (napi_targets m) = false
      \/ napi_targets m = Some (JArray []) ->
      fst (action rt path cmd s)
      = Throw (Error (u "Error: No napi.targets found in package.json"))
      /\ failed (snd (action rt path cmd s))
         = failed s ++ [u "Error: No napi.targets found in package.json"]
      /\ outputs (snd (action rt path cmd s)) = outputs s)
  /\ napi_targets (JObject [(u "napi", JObject [])]) = None
  /\ forall bad : list jsstring,
       u "Error: No napi.targets found in package.json"
       <> u "Error: Unsupported targets found: " ++ join (u ", ") bad.
Proof.
  split; [|split].
  - intros rt path cmd s m Hr H.
    rewrite (action_no_targets rt path cmd s m Hr).
    + cbn [fst snd outputs failed]. repeat split.
    + destruct H as [H|[H|H]].
      * rewrite H. reflexivity.
      * rewrite H. cbn [negb]. rewrite orb_true_r. reflexivity.
      * rewrite H. reflexivity.
  - vm_compute. reflexivity.
  - intros bad H. vm_compute in H. discriminate H.
Qed.

Lemma no_targets_declared_witness :
  let rt := Example.node Example.package_json (jq "{'napi': {}}")
              (JObject [(u "napi", JObject [])]) in
  fst (action rt Example.package_json (u "pnpm build") initial)
  = Throw (Error (u "Error: No napi.targets found in package.json"))
  /\ failed (snd (action rt Example.package_json (u "pnpm build") initial))
     = failed initial ++ [u "Error: No napi.targets found in package.json"]
  /\ outputs (snd (action rt Example.package_json (u "pnpm build") initial))
     = outputs initial.
Proof.
  intros rt.
  apply (proj1 no_targets_declared rt Example.package_json (u "pnpm build")
           initial (JObject [(u "napi", JObject [])])).
  - split; [vm_compute; reflexivity|].
    eexists. split; vm_compute; reflexivity.
  - left. vm_compute. reflexivity.
Defined.

(** * Further properties of the generator and of the registry *)

(** ** Cleaning an identifier *)

Lemma filter_idem {A : Type} (f : A -> bool) (l : list A) :
  filter f (filter f l) = filter f l.
Proof.
  induction l as [|x l IH]; simpl; [reflexivity|].
  destruct (f x) eqn:E; simpl; rewrite ?E, IH; reflexivity.
Qed.

Lemma filter_all {A : Type} (f : A -> bool) (l : list A) :
  forallb f l = true -> filter f l = l.
Proof.
  induction l as [|x l IH]; simpl; [reflexivity|].
  intros H. apply andb_true_iff in H as [Hx Hl]. rewrite Hx, IH; auto.
Qed.

Lemma line_break_is_white_space (c : N) :
  is_line_break c = true -> isWhiteSpaceOrLineTerminator c = true.
Proof.
  unfold is_line_break, LF, CR, isWhiteSpaceOrLineTerminator. intros H.
  apply orb_true_iff in H as [H|H]; apply N.eqb_eq in H; subst; reflexivity.
Qed.

(** Deleting line breaks commutes with stripping leading white space. *)
Lemma trimStart_without_line_breaks (s : jsstring) :
  trimStart (filter (fun c => negb (is_line_break c)) s)
  = filter (fun c => negb (is_line_break c)) (trimStart s).
Proof.
  induction s as [|c s IH]; simpl; [reflexivity|].
  destruct (isWhiteSpaceOrLineTerminator c) eqn:Ew.
  - destruct (is_line_break c); simpl; rewrite ?Ew; exact IH.
  - destruct (is_line_break c) eqn:El.
    + apply line_break_is_white_space in El. congruence.
    + simpl. rewrite Ew, El. reflexivity.
Qed.

Lemma trim_without_line_breaks (s : jsstring) :
  trim (filter (fun c => negb (is_line_break c)) s)
  = filter (fun c => negb (is_line_break c)) (trim s).
Proof.
  unfold trim, trimEnd.
  rewrite trimStart_without_line_breaks, <- filter_rev,
    trimStart_without_line_breaks, <- filter_rev.
  reflexivity.
Qed.

Lemma clean_as_filter (s : jsstring) :
  clean s = filter (fun c => negb (is_line_break c)) (trim s).
Proof. unfold clean. apply replace_line_breaks_filter. Qed.

Lemma trim_fixed (s : jsstring) :
  starts_clean s = true -> starts_clean (rev s) = true -> trim s = s.
Proof.
  intros H1 H2. unfold trim, trimEnd.
  assert (E : forall t, starts_clean t = true -> trimStart t = t).
  { intros [|c t] H; [reflexivity|]. simpl in *.
    apply negb_true_iff in H. rewrite H. reflexivity. }
  rewrite (E s H1), (E (rev s) H2). apply rev_involutive.
Qed.

Lemma starts_clean_spec (s : jsstring) :
  starts_clean s = true <->
  forall c, hd_error s = Some c -> isWhiteSpaceOrLineTerminator c = false.
Proof.
  destruct s as [|d s]; simpl.
  - split; [discriminate | reflexivity].
  - rewrite negb_true_iff. split.
    + intros H c E. inversion E; subst; exact H.
    + intros H. apply H. reflexivity.
Qed.

Lemma clean_is_tidy (s : jsstring) : tidy (clean s) = true.
Proof.
  unfold tidy. rewrite !andb_true_iff. split; [split|].
  - apply negb_true_iff. destruct (existsb is_line_break (clean s)) eqn:E;
      [|reflexivity].
    apply existsb_exists in E as [c [Hin Hc]].
    rewrite clean_as_filter in Hin. apply filter_In in Hin as [_ Hn].
    rewrite Hc in Hn. discriminate.
  - apply starts_clean_spec. apply clean_head.
  - apply starts_clean_spec. apply clean_last.
Qed.

Lemma tidy_is_fixed (s : jsstring) : tidy s = true -> clean s = s.
Proof.
  unfold tidy. rewrite !andb_true_iff. intros [[H1 H2] H3].
  rewrite clean_as_filter, (trim_fixed s H2 H3). apply filter_all.
  apply forallb_forall. intros c Hin. apply negb_true_iff.
  apply negb_true_iff in H1.
  destruct (is_line_break c) eqn:E; [|reflexivity].
  rewrite <- H1. symmetry. apply existsb_exists. exists c. auto.
Qed.

(** X1. Cleaning is idempotent, and its fixed points are exactly the
    strings that hold no CR or LF and neither begin nor end with white
    space or a line terminator: what the loop reports and looks up is
    always such a string, and such a string is looked up as declared. *)
Theorem clean_idempotent_fixed_points (s : jsstring) :
  clean (clean s) = clean s
  /\ tidy (clean s) = true
  /\ (clean s = s <-> tidy s = true).
Proof.
  split; [apply tidy_is_fixed, clean_is_tidy|].
  split; [apply clean_is_tidy|].
  split; [intros E; rewrite <- E; apply clean_is_tidy | apply tidy_is_fixed].
Qed.

(** X2. The two steps of cleaning commute, and line breaks are deleted
    wherever they stand, not only around the identifier: an identifier
    with CR or LF characters inserted anywhere inside it is cleaned to,
    and looked up as, the identifier without them. White space other than
    CR and LF is removed only at the two ends. *)
Theorem line_breaks_removed_everywhere (a breaks b : jsstring) :
  forallb is_line_break breaks = true ->
  clean (a ++ breaks ++ b) = clean (a ++ b)
  /\ clean (a ++ b) = trim (replace_line_breaks (a ++ b))
  /\ (forall cmd, getPlatformConfig (clean (a ++ breaks ++ b)) cmd
                  = getPlatformConfig (clean (a ++ b)) cmd)
  /\ Forall (fun c => c <> CR /\ c <> LF) (clean (a ++ breaks ++ b)).
Proof.
  intros Hb.
  assert (Hc : forall s, clean s = trim (replace_line_breaks s)).
  { intros s. rewrite clean_as_filter, replace_line_breaks_filter.
    symmetry. apply trim_without_line_breaks. }
  assert (E : clean (a ++ breaks ++ b) = clean (a ++ b)).
  { assert (Hn : filter (fun c => negb ((c =? LF) || (c =? CR))) breaks = []).
    { clear -Hb. induction breaks as [|c l IH]; [reflexivity|].
      simpl in Hb. apply andb_true_iff in Hb as [Hc Hl]. simpl.
      unfold is_line_break in Hc. rewrite Hc. simpl. auto. }
    rewrite !Hc, !replace_line_breaks_filter, !filter_app, Hn.
    reflexivity. }
  split; [exact E|]. split; [apply Hc|]. split; [intros cmd; rewrite E; reflexivity|].
  apply Forall_forall. intros c Hin.
  rewrite clean_as_filter in Hin. apply filter_In in Hin as [_ Hn].
  apply negb_true_iff in Hn. unfold is_line_break in Hn.
  apply orb_false_iff in Hn as [H1 H2].
  apply N.eqb_neq in H1, H2. auto.
Qed.

Lemma line_breaks_removed_everywhere_witness :
  clean (u "x86_64-" ++ [CR; LF] ++ u "apple-darwin")
  = u "x86_64-apple-darwin"
  /\ getPlatformConfig (clean (u "x86_64-" ++ [CR; LF] ++ u "apple-darwin"))
       (u "pnpm build")
     = Some (Config (row (u "x86_64-apple-darwin") (u "pnpm build"))).
Proof.
  destruct (line_breaks_removed_everywhere (u "x86_64-") [CR; LF]
              (u "apple-darwin")) as [H1 [_ [H3 _]]].
  - vm_compute. reflexivity.
  - split; [rewrite H1 | rewrite H3]; vm_compute; reflexivity.
Defined.

(** ** The lookup, case by case *)

Lemma accepted_is_tidy (id : jsstring) :
  accepted id ->
  existsb isWhiteSpaceOrLineTerminator id = false /\ tidy id = true.
Proof.
  intros [H|H]; vm_compute in H;
    repeat (destruct H as [<-|H]; [vm_compute; split; reflexivity|]);
    destruct H.
Qed.

(** X3. The lookup has exactly three cases, and which one applies does
    not depend on the build command: a key of the table gives its row,
    with the command only inside [build]; a name inherited from
    [Object.prototype] gives that member; every other string gives
    [null]. *)
Theorem lookup_cases (id cmd : jsstring) :
  (In id supported_targets ->
   getPlatformConfig id cmd = Some (Config (row id cmd)))
  /\ (In id Object_prototype_names ->
      getPlatformConfig id cmd = Some (ObjectPrototypeMember id))
  /\ (getPlatformConfig id cmd = None <-> ~ accepted id)
  /\ forall cmd', is_null (getPlatformConfig id cmd)
                  = is_null (getPlatformConfig id cmd').
Proof.
  split; [apply registry_row|]. split; [apply registry_inherited|].
  assert (N : forall c, getPlatformConfig id c = None <-> ~ accepted id).
  { intros c. rewrite registry_null. unfold accepted. tauto. }
  split; [apply N|].
  intros cmd'.
  destruct (getPlatformConfig id cmd) as [v|] eqn:E1;
    destruct (getPlatformConfig id cmd') as [v'|] eqn:E2;
    try reflexivity; exfalso.
  - apply N in E2. apply (N cmd) in E2. congruence.
  - apply N in E1. apply (N cmd') in E1. congruence.
Qed.

Lemma lookup_cases_witness :
  getPlatformConfig (u "riscv64gc-unknown-linux-musl") (u "yarn build")
  = Some (Config
            (mkConfig (u "ubuntu-22.04") (u "riscv64gc-unknown-linux-musl")
               (u "yarn build --target riscv64gc-unknown-linux-musl --use-cross")))
  /\ getPlatformConfig (u "valueOf") (u "yarn build")
     = Some (ObjectPrototypeMember (u "valueOf"))
  /\ getPlatformConfig (u "wasm32-wasip1-threads") (u "yarn build") = None.
Proof.
  destruct (lookup_cases (u "riscv64gc-unknown-linux-musl") (u "yarn build"))
    as [H1 _].
  destruct (lookup_cases (u "valueOf") (u "yarn build")) as [_ [H2 _]].
  destruct (lookup_cases (u "wasm32-wasip1-threads") (u "yarn build"))
    as [_ [_ [H3 _]]].
  split; [rewrite H1; [reflexivity | vm_compute; tauto]|].
  split; [apply H2; vm_compute; tauto|].
  apply H3. intros [H|H]; vm_compute in H;
    repeat (destruct H as [H|H]; [discriminate H|]); exact H.
Defined.

(** X4. The lookup itself matches exactly and normalizes nothing: a
    string that holds a white-space or line-terminator character anywhere
    is answered [null], whatever the build command; in particular a key of
    the table padded with white space is not found by the lookup, although
    its cleaned form is. *)
Theorem lookup_matches_exactly (id cmd : jsstring) :
  existsb isWhiteSpaceOrLineTerminator id = true ->
  getPlatformConfig id cmd = None
  /\ (In (clean id) supported_targets ->
      getPlatformConfig (clean id) cmd = Some (Config (row (clean id) cmd))).
Proof.
  intros H. split; [|apply registry_row].
  apply registry_null. split; intros Hin.
  - destruct (accepted_is_tidy id (or_introl Hin)) as [E _]. congruence.
  - destruct (accepted_is_tidy id (or_intror Hin)) as [E _]. congruence.
Qed.

Lemma lookup_matches_exactly_witness :
  getPlatformConfig (u "aarch64-pc-windows-msvc ") (u "pnpm build") = None
  /\ getPlatformConfig (clean (u "aarch64-pc-windows-msvc ")) (u "pnpm build")
     = Some (Config
               (mkConfig (u "windows-latest") (u "aarch64-pc-windows-msvc")
                  (u "pnpm build --target aarch64-pc-windows-msvc"))).
Proof.
  destruct (lookup_matches_exactly (u "aarch64-pc-windows-msvc ")
              (u "pnpm build")) as [H1 H2].
  - vm_compute. reflexivity.
  - split; [exact H1|]. rewrite H2; [reflexivity | vm_compute; tauto].
Defined.

(** X5. The host of a row follows the platform of its identifier: the
    identifiers ending in [-apple-darwin] build on [macos-latest], those
    ending in [-pc-windows-msvc] on [windows-latest], and every other
    identifier of the table on [ubuntu-22.04]. *)
Theorem host_follows_platform (id cmd : jsstring) :
  In id supported_targets ->
  exists c,
    getPlatformConfig id cmd = Some (Config c)
    /\ host c
       = if ends_with (u "-apple-darwin") id then u "macos-latest"
         else if ends_with (u "-pc-windows-msvc") id then u "windows-latest"
         else u "ubuntu-22.04".
Proof.
  intros H. exists (row id cmd). split; [apply registry_row; exact H|].
  cbn [row host]. vm_compute in H.
  repeat (destruct H as [<-|H]; [vm_compute; reflexivity|]).
  destruct H.
Qed.

Lemma host_follows_platform_witness :
  exists c,
    getPlatformConfig (u "x86_64-unknown-freebsd") (u "pnpm build")
    = Some (Config c)
    /\ host c = u "ubuntu-22.04".
Proof.
  destruct (host_follows_platform (u "x86_64-unknown-freebsd")
              (u "pnpm build")) as [c [H1 H2]].
  - vm_compute. tauto.
  - exists c. split; [exact H1 | exact H2].
Defined.

(** ** Every way a run can end *)

Section Outcomes.

Variable rt : Runtime.

(** The [catch] block, applied to whatever the [try] block did. *)
Lemma action_of_body (path cmd : jsstring) (s : state) :
  action rt path cmd s
  = match action_body rt path cmd s with
    | (Normal a, s') => (Normal a, s')
    | (Throw e, s0) =>
        (Throw e,
         mkState (console s0 ++ [error_generating (message e)]) (outputs s0)
           (failed s0 ++ [message e]))
    end.
Proof.
  unfold action, try_catch.
  destruct (action_body rt path cmd s) as [[a|e] s0]; reflexivity.
Qed.

Lemma action_body_prefix (path cmd : jsstring) (s : state)
  (content : jsstring) :
  existsSync rt path = true ->
  readFileSync rt path = Normal content ->
  forall e, JSON_parse rt content = Throw e ->
  action_body rt path cmd s
  = (Throw e, mkState (console s ++ [log_reading path]) (outputs s) (failed s)).
Proof.
  intros Hex Hread e Hparse. unfold action_body. rewrite Hex. cbn [negb].
  unfold bind at 1. unfold console_write at 1.
  unfold bind at 1. unfold lift at 1. rewrite Hread.
  unfold bind at 1. unfold lift at 1. rewrite Hparse. reflexivity.
Qed.

Lemma action_body_unreadable (path cmd : jsstring) (s : state) (e : exn) :
  existsSync rt path = true ->
  readFileSync rt path = Throw e ->
  action_body rt path cmd s
  = (Throw e, mkState (console s ++ [log_reading path]) (outputs s) (failed s)).
Proof.
  intros Hex Hread. unfold action_body. rewrite Hex. cbn [negb].
  unfold bind at 1. unfold console_write at 1.
  unfold bind at 1. unfold lift at 1. rewrite Hread. reflexivity.
Qed.

(** The loop stops at the first element that is not a string: the strings
    before it have been processed, the elements after it are not looked
    at. *)
Lemma for_of_abort (cmd : jsstring) (pre : list jsstring) (t : json)
  (post : list json) :
  is_string t = false ->
  forall items unsup s,
    for_of_napiTargets rt (map JString pre ++ t :: post) cmd items unsup s
    = (Throw (TypeError (TypeError_message rt t)),
       mkState (console s ++ loop_lines cmd pre) (outputs s) (failed s)).
Proof.
  intros Ht. induction pre as [|id pre IH]; intros items unsup s.
  - cbn [map app for_of_napiTargets loop_lines].
    unfold bind at 1. unfold lift at 1.
    destruct t; try discriminate Ht; cbn [cleanTarget];
      rewrite app_nil_r, state_eta; reflexivity.
  - cbn [map app for_of_napiTargets cleanTarget loop_lines].
    unfold bind at 1. unfold lift at 1. unfold bind at 1.
    unfold console_write at 1.
    destruct (getPlatformConfig (clean id) cmd) as [v|]; cbn [is_null];
      unfold bind at 1; unfold console_write at 1; rewrite IH;
      cbn [console outputs failed]; rewrite <- !app_assoc; reflexivity.
Qed.

Lemma strings_of_None_split (targets : list json) :
  strings_of targets = None ->
  exists pre t post,
    targets = map JString pre ++ t :: post /\ is_string t = false.
Proof.
  induction targets as [|t targets IH]; simpl; [discriminate|].
  intros H.
  destruct (is_string t) eqn:Et.
  - destruct t as [| b | n | str | l | props]; try discriminate Et.
    destruct (strings_of targets); [discriminate|].
    destruct (IH eq_refl) as [pre [t' [post [E Ht']]]].
    exists (str :: pre), t', post. split; [simpl; congruence | exact Ht'].
  - exists [], t, targets. auto.
Qed.

Lemma action_body_not_a_string (path cmd : jsstring) (s : state) (m : json)
  (pre : list jsstring) (t : json) (post : list json) :
  reads rt path m ->
  napi_targets m = Some (JArray (map JString pre ++ t :: post)) ->
  is_string t = false ->
  action_body rt path cmd s
  = (Throw (TypeError (TypeError_message rt t)),
     mkState
       (console s
          ++ [ log_reading path;
               log_found (List.length (map JString pre ++ t :: post));
               log_raw_targets (map JString pre ++ t :: post) ]
          ++ loop_lines cmd pre)
       (outputs s) (failed s)).
Proof.
  intros [Hex [content [Hread Hparse]]] Hm Ht.
  unfold action_body. rewrite Hex. cbn [negb].
  unfold bind at 1. unfold console_write at 1.
  unfold bind at 1. unfold lift at 1. rewrite Hread.
  unfold bind at 1. unfold lift at 1. rewrite Hparse.
  rewrite (napi_targets_guard m _ Hm). rewrite Hm.
  cbn [Json.elements_of].
  replace (Nat.eqb (List.length (map JString pre ++ t :: post)) 0)
    with false by (rewrite length_app; simpl;
                   destruct (List.length (map JString pre)); reflexivity).
  unfold bind at 1. unfold console_write at 1.
  unfold bind at 1. unfold console_write at 1.
  unfold bind at 1. rewrite (for_of_abort cmd pre t post Ht).
  cbn [console outputs failed]. rewrite <- !app_assoc. reflexivity.
Qed.

End Outcomes.

Lemma guard_is_nonempty_array (v : option json) :
  negb (Json.ToBoolean v) || negb (Json.isArray v)
  || Nat.eqb (List.length (Json.elements_of v)) 0
  = negb (is_nonempty_array v).
Proof.
  destruct v as [[| b | n | str | [|t ts] | props]|]; cbn;
    rewrite ?orb_true_r; reflexivity.
Qed.

(** Every run ends in one of seven ways, each with its final state. *)
Lemma run_cases (rt : Runtime) (path cmd : jsstring) (s : state) :
  (existsSync rt path = false
   /\ action rt path cmd s
      = (Throw (Error (not_found_message path)),
         failed_with s [] (Error (not_found_message path))))
  \/ (exists e, existsSync rt path = true /\ readFileSync rt path = Throw e
                /\ action rt path cmd s
                   = (Throw e, failed_with s [log_reading path] e))
  \/ (exists content e,
        existsSync rt path = true /\ readFileSync rt path = Normal content
        /\ JSON_parse rt content = Throw e
        /\ action rt path cmd s
           = (Throw e, failed_with s [log_reading path] e))
  \/ (exists m, reads rt path m /\ is_nonempty_array (napi_targets m) = false
                /\ action rt path cmd s
                   = (Throw (Error no_targets_message),
                      failed_with s [log_reading path]
                        (Error no_targets_message)))
  \/ (exists m pre t post,
        reads rt path m
        /\ napi_targets m = Some (JArray (map JString pre ++ t :: post))
        /\ is_string t = false
        /\ action rt path cmd s
           = (Throw (TypeError (TypeError_message rt t)),
              failed_with s
                ([ log_reading path;
                   log_found (List.length (map JString pre ++ t :: post));
                   log_raw_targets (map JString pre ++ t :: post) ]
                 ++ loop_lines cmd pre)
                (TypeError (TypeError_message rt t))))
  \/ (exists m ids,
        reads rt path m /\ declares m ids /\ unresolved cmd ids <> []
        /\ action rt path cmd s
           = (Throw (Error (unsupported_message (unresolved cmd ids))),
              failed_with s (announced path ids ++ loop_lines cmd ids)
                (Error (unsupported_message (unresolved cmd ids)))))
  \/ (exists m ids,
        reads rt path m /\ declares m ids /\ ids <> []
        /\ unresolved cmd ids = []
        /\ action rt path cmd s = (Normal tt, succeeded rt path cmd ids s)).
Proof.
  destruct (existsSync rt path) eqn:Hex.
  2: { left. split; [reflexivity|]. rewrite action_of_body.
       unfold action_body. rewrite Hex. reflexivity. }
  right. destruct (readFileSync rt path) as [content|e] eqn:Hread.
  2: { left. exists e. do 2 (split; [first [reflexivity | assumption]|]).
       rewrite action_of_body, (action_body_unreadable rt path cmd s e Hex Hread).
       unfold failed_with. cbn [console outputs failed].
       rewrite <- app_assoc. reflexivity. }
  right. destruct (JSON_parse rt content) as [m|e] eqn:Hparse.
  2: { left. exists content, e.
       do 3 (split; [first [reflexivity | assumption]|]).
       rewrite action_of_body,
         (action_body_prefix rt path cmd s content Hex Hread e Hparse).
       unfold failed_with. cbn [console outputs failed].
       rewrite <- app_assoc. reflexivity. }
  right.
  assert (Hr : reads rt path m) by (split; [assumption | eauto]).
  destruct (is_nonempty_array (napi_targets m)) eqn:Hg.
  2: { left. exists m. do 2 (split; [assumption|]).
       rewrite (action_no_targets rt path cmd s m Hr)
         by (rewrite guard_is_nonempty_array, Hg; reflexivity).
       unfold failed_with. reflexivity. }
  right.
  destruct (napi_targets m) as [[| b | n | str | [|t0 ts] | props]|] eqn:Hm;
    try discriminate Hg.
  destruct (strings_of (t0 :: ts)) as [ids|] eqn:Hs.
  - right. apply strings_of_Some in Hs.
    assert (Hd : declares m ids) by (unfold declares; congruence).
    destruct (unresolved cmd ids) as [|b bad] eqn:Hu.
    + right. exists m, ids.
      assert (Hne : ids <> []) by (intros ->; discriminate).
      do 4 (split; [assumption|]).
      apply (action_declared rt path cmd m ids s Hr Hd Hne Hu).
    + left. exists m, ids.
      assert (Hu' : unresolved cmd ids <> []) by (rewrite Hu; discriminate).
      do 3 (split; [assumption|]).
      rewrite (action_unsupported rt path cmd m ids s Hr Hd Hu').
      unfold failed_with. cbn [message]. rewrite <- !app_assoc. reflexivity.
  - left. destruct (strings_of_None_split _ Hs) as [pre [t [post [E Ht]]]].
    rewrite E in Hm. exists m, pre, t, post.
    do 3 (split; [assumption|]).
    rewrite action_of_body.
    rewrite (action_body_not_a_string rt path cmd s m pre t post Hr Hm Ht).
    unfold failed_with. cbn [console outputs failed message].
    rewrite <- !app_assoc. reflexivity.
Qed.

(** X6. Missing manifest: when [fs.existsSync] answers [false] for the
    manifest path, the run throws the error [Error: <path> not found],
    passes that message to [core.setFailed], publishes nothing, and writes
    nothing to the console but the failure line; the outcome is the same
    whatever [fs.readFileSync] and [JSON.parse] would answer. *)
Theorem manifest_not_found (rt : Runtime) (path cmd : jsstring) (s : state) :
  existsSync rt path = false ->
  action rt path cmd s
  = (Throw (Error (u "Error: " ++ path ++ u " not found")),
     mkState
       (console s
          ++ [error_generating (u "Error: " ++ path ++ u " not found")])
       (outputs s)
       (failed s ++ [u "Error: " ++ path ++ u " not found"]))
  /\ forall (read : jsstring -> completion jsstring)
            (parse : jsstring -> completion json),
       action (mkRuntime (existsSync rt) read parse (dirname rt)
                 (TypeError_message rt)) path cmd s
       = action rt path cmd s.
Proof.
  intros Hex.
  assert (G : forall r, existsSync r path = false ->
    action r path cmd s
    = (Throw (Error (u "Error: " ++ path ++ u " not found")),
       mkState
         (console s
            ++ [error_generating (u "Error: " ++ path ++ u " not found")])
         (outputs s)
         (failed s ++ [u "Error: " ++ path ++ u " not found"]))).
  { intros r Hr. rewrite action_of_body. unfold action_body. rewrite Hr.
    reflexivity. }
  split; [exact (G rt Hex)|].
  intros read parse. rewrite (G rt Hex). apply G. exact Hex.
Qed.

Lemma manifest_not_found_witness :
  action (Example.declaring [u "x86_64-apple-darwin"]) (u "package.json")
    (u "pnpm build") initial
  = (Throw (Error (u "Error: package.json not found")),
     mkState [error_generating (u "Error: package.json not found")] []
       [u "Error: package.json not found"]).
Proof.
  apply (proj1 (manifest_not_found
                  (Example.declaring [u "x86_64-apple-darwin"])
                  (u "package.json") (u "pnpm build") initial eq_refl)).
Defined.

(** X7. Unreadable or malformed manifest: when the file exists but
    [fs.readFileSync] or [JSON.parse] throws, the run rethrows that very
    exception, passes its message to [core.setFailed], publishes nothing,
    and no identifier is processed. *)
Theorem manifest_errors_propagate (rt : Runtime) (path cmd : jsstring)
  (s : state) (e : exn) :
  existsSync rt path = true ->
  readFileSync rt path = Throw e
  \/ (exists content, readFileSync rt path = Normal content
                      /\ JSON_parse rt content = Throw e) ->
  action rt path cmd s
  = (Throw e,
     mkState (console s ++ [log_reading path; error_generating (message e)])
       (outputs s) (failed s ++ [message e])).
Proof.
  intros Hex [Hread | [content [Hread Hparse]]]; rewrite action_of_body.
  - rewrite (action_body_unreadable rt path cmd s e Hex Hread).
    cbn [console outputs failed]. rewrite <- app_assoc. reflexivity.
  - rewrite (action_body_prefix rt path cmd s content Hex Hread e Hparse).
    cbn [console outputs failed]. rewrite <- app_assoc. reflexivity.
Qed.

Lemma manifest_errors_propagate_witness :
  let rt := mkRuntime (fun _ => true) (fun _ => Normal (u "{ napi: "))
              (fun _ => Throw (SyntaxError (u "Unexpected token n in JSON")))
              Example.posix_dirname (fun _ => u "target.trim is not a function")
  in
  action rt Example.package_json (u "pnpm build") initial
  = (Throw (SyntaxError (u "Unexpected token n in JSON")),
     mkState
       [ log_reading Example.package_json;
         error_generating (u "Unexpected token n in JSON") ]
       [] [u "Unexpected token n in JSON"]).
Proof.
  intros rt.
  apply (manifest_errors_propagate rt Example.package_json (u "pnpm build")
           initial (SyntaxError (u "Unexpected token n in JSON"))).
  - reflexivity.
  - right. exists (u "{ napi: "). split; reflexivity.
Defined.

(** X8. A declared target that is not a string: the loop stops at the
    first such element with the [TypeError] of [target.trim()]; the
    strings before it have been processed, the elements after it are never
    looked at, and the run fails with the [TypeError]'s message, not with
    the list of unsupported targets, even when some of the strings before
    it did not resolve. Nothing is published. *)
Theorem non_string_target_aborts (rt : Runtime) (path cmd : jsstring)
  (s : state) (m : json) (pre : list jsstring) (t : json)
  (post : list json) :
  reads rt path m ->
  napi_targets m = Some (JArray (map JString pre ++ t :: post)) ->
  is_string t = false ->
  fst (action rt path cmd s) = Throw (TypeError (TypeError_message rt t))
  /\ failed (snd (action rt path cmd s))
     = failed s ++ [TypeError_message rt t]
  /\ outputs (snd (action rt path cmd s)) = outputs s
  /\ processed (console (snd (action rt path cmd s)))
     = processed (console s) ++ map clean pre.
Proof.
  intros Hr Hm Ht. rewrite action_of_body.
  rewrite (action_body_not_a_string rt path cmd s m pre t post Hr Hm Ht).
  cbn [fst snd console outputs failed message].
  repeat (split; [reflexivity|]).
  rewrite !processed_app, processed_loop_lines. cbn [processed].
  rewrite app_nil_r. reflexivity.
Qed.

Lemma non_string_target_aborts_witness :
  let targets := [JString (u "bogus"); JNumber (u "42");
                  JString (u "x86_64-apple-darwin")] in
  let rt := Example.node Example.package_json (u "{}")
              (Example.manifest targets) in
  fst (action rt Example.package_json (u "pnpm build") initial)
  = Throw (TypeError (u "target.trim is not a function"))
  /\ failed (snd (action rt Example.package_json (u "pnpm build") initial))
     = [u "target.trim is not a function"]
  /\ outputs (snd (action rt Example.package_json (u "pnpm build") initial))
     = []
  /\ processed (console (snd (action rt Example.package_json (u "pnpm build")
                                initial)))
     = [u "bogus"].
Proof.
  intros targets rt.
  apply (non_string_target_aborts rt Example.package_json (u "pnpm build")
           initial (Example.manifest targets) [u "bogus"] (JNumber (u "42"))
           [JString (u "x86_64-apple-darwin")]).
  - split; [vm_compute; reflexivity|].
    eexists. split; vm_compute; reflexivity.
  - vm_compute. reflexivity.
  - reflexivity.
Defined.

(** X9. All or nothing, on every run: either the run returns, having
    published exactly the three outputs [matrix], [targets] and
    [binding-directory] in this order and never having called
    [core.setFailed]; or it throws, having published nothing, having
    called [core.setFailed] exactly once, with the message of the
    exception it throws, and having written the failure line last. The
    console is only ever appended to. *)
Theorem run_all_or_nothing (rt : Runtime) (path cmd : jsstring) (s : state) :
  (fst (action rt path cmd s) = Normal tt
   /\ failed (snd (action rt path cmd s)) = failed s
   /\ (exists matrixJson targetsJson,
         outputs (snd (action rt path cmd s))
         = outputs s
           ++ [ (u "matrix", matrixJson); (u "targets", targetsJson);
                (u "binding-directory", dirname rt path) ])
   /\ exists lines, console (snd (action rt path cmd s)) = console s ++ lines)
  \/ (exists e,
        fst (action rt path cmd s) = Throw e
        /\ failed (snd (action rt path cmd s)) = failed s ++ [message e]
        /\ outputs (snd (action rt path cmd s)) = outputs s
        /\ exists lines,
             console (snd (action rt path cmd s))
             = console s ++ lines ++ [error_generating (message e)]).
Proof.
  assert (F : forall e lines,
    action rt path cmd s = (Throw e, failed_with s lines e) ->
    exists e,
      fst (action rt path cmd s) = Throw e
      /\ failed (snd (action rt path cmd s)) = failed s ++ [message e]
      /\ outputs (snd (action rt path cmd s)) = outputs s
      /\ exists lines,
           console (snd (action rt path cmd s))
           = console s ++ lines ++ [error_generating (message e)]).
  { intros e lines ->. exists e. cbn [fst snd failed_with console outputs failed].
    repeat (split; [reflexivity|]). exists lines. reflexivity. }
  destruct (run_cases rt path cmd s) as [H|[H|[H|[H|[H|[H|H]]]]]];
    repeat match type of H with
           | exists _, _ => destruct H as [? H]
           | _ /\ _ => destruct H as [_ H]
           end;
    try (right; exact (F _ _ H)).
  left. rewrite H. cbn [fst snd succeeded console outputs failed].
  split; [reflexivity|]. split; [reflexivity|]. split.
  - eexists. eexists. unfold published. reflexivity.
  - eexists. reflexivity.
Qed.

(** ** When a run succeeds *)

Lemma resolved_of_supported (cmd : jsstring) (ids : list jsstring) :
  Forall (fun id => In (clean id) supported_targets) ids ->
  resolved cmd ids = map (fun id => Config (row (clean id) cmd)) ids
  /\ unresolved cmd ids = [].
Proof.
  unfold unresolved.
  induction 1 as [|id ids Hid _ [IH1 IH2]]; [split; reflexivity|].
  simpl. rewrite (registry_row (clean id) cmd Hid). simpl.
  rewrite IH1, IH2. split; reflexivity.
Qed.

Lemma unresolved_nil_accepted (cmd : jsstring) (ids : list jsstring) :
  unresolved cmd ids = [] <-> Forall (fun id => accepted (clean id)) ids.
Proof.
  rewrite unresolved_nil. split; intros H; eapply Forall_impl; try exact H;
    intros id Hid; cbv beta in *.
  - destruct (getPlatformConfig (clean id) cmd) as [v|] eqn:E;
      [|congruence].
    unfold accepted.
    destruct (in_dec (list_eq_dec N.eq_dec) (clean id) supported_targets)
      as [|H1]; [tauto|].
    destruct (in_dec (list_eq_dec N.eq_dec) (clean id) Object_prototype_names)
      as [|H2]; [tauto|].
    assert (getPlatformConfig (clean id) cmd = None)
      by (apply registry_null; tauto).
    congruence.
  - intros E. apply registry_null in E. unfold accepted in Hid. tauto.
Qed.

(** X10. Every combination of supported targets is accepted: on a
    manifest that declares a non-empty list of strings each of which
    cleans to a key of the table, in any order and with repetitions, the
    run returns, and the published Build Plan holds, for each declared
    identifier in turn, the row of its cleaned form for the given build
    command. *)
Theorem supported_targets_are_accepted (rt : Runtime) (path cmd : jsstring)
  (s : state) (m : json) (ids : list jsstring) :
  reads rt path m -> declares m ids -> ids <> [] ->
  Forall (fun id => In (clean id) supported_targets) ids ->
  fst (action rt path cmd s) = Normal tt
  /\ failed (snd (action rt path cmd s)) = failed s
  /\ outputs (snd (action rt path cmd s))
     = outputs s
       ++ [ (u "matrix",
             Json.stringify_matrix
               (map (fun id => Config (row (clean id) cmd)) ids));
            (u "targets", Json.stringify (JArray (map JString ids)));
            (u "binding-directory", dirname rt path) ].
Proof.
  intros Hr Hd Hne Hs.
  destruct (resolved_of_supported cmd ids Hs) as [E1 E2].
  rewrite (action_declared rt path cmd m ids s Hr Hd Hne E2).
  cbn [fst snd succeeded outputs failed]. unfold published, plan.
  rewrite E1. repeat split.
Qed.

Lemma supported_targets_are_accepted_witness :
  let ids := [u "aarch64-unknown-linux-musl" ++ [LF];
              u " x86_64-unknown-linux-musl"] in
  let rt := Example.declaring ids in
  fst (action rt Example.package_json (u "pnpm build") initial) = Normal tt
  /\ outputs (snd (action rt Example.package_json (u "pnpm build") initial))
     = [ (u "matrix",
          jq "{'settings':[{'host':'ubuntu-22.04','target':'aarch64-unknown-linux-musl','build':'pnpm build --target aarch64-unknown-linux-musl -x'},{'host':'ubuntu-22.04','target':'x86_64-unknown-linux-musl','build':'pnpm build --target x86_64-unknown-linux-musl -x'}]}");
         (u "targets",
          jq "['aarch64-unknown-linux-musl\n',' x86_64-unknown-linux-musl']");
         (u "binding-directory", u "crates/binding") ].
Proof.
  intros ids rt.
  destruct (supported_targets_are_accepted rt Example.package_json
              (u "pnpm build") initial (Example.manifest (map JString ids))
              ids) as [H1 [_ H3]].
  - split; [vm_compute; reflexivity|].
    eexists. split; vm_compute; reflexivity.
  - vm_compute. reflexivity.
  - discriminate.
  - constructor; [vm_compute; tauto|].
    constructor; [vm_compute; tauto|]. constructor.
  - split; [exact H1|]. rewrite H3. vm_compute. reflexivity.
Defined.

(** X11. The exact condition of success: on a readable manifest whose
    [napi.targets] is an array of strings, the run returns if and only if
    the array is not empty and every declared identifier, once cleaned, is
    a key of the table or a name inherited from [Object.prototype]. *)
Theorem success_condition (rt : Runtime) (path cmd : jsstring) (s : state)
  (m : json) (ids : list jsstring) :
  reads rt path m -> declares m ids ->
  (fst (action rt path cmd s) = Normal tt
   <-> ids <> [] /\ Forall (fun id => accepted (clean id)) ids).
Proof.
  intros Hr Hd. split.
  - intros H. destruct ids as [|id ids].
    + rewrite (action_no_targets rt path cmd s m Hr) in H; [discriminate|].
      unfold declares in Hd. rewrite Hd. reflexivity.
    + split; [discriminate|]. apply (unresolved_nil_accepted cmd).
      destruct (unresolved cmd (id :: ids)) as [|b bad] eqn:Hu;
        [reflexivity|].
      rewrite (action_unsupported rt path cmd m _ s Hr Hd) in H;
        [discriminate | rewrite Hu; discriminate].
  - intros [Hne Ha]. apply (unresolved_nil_accepted cmd) in Ha.
    rewrite (action_declared rt path cmd m ids s Hr Hd Hne Ha). reflexivity.
Qed.

Lemma success_condition_witness :
  let ids := [u "x86_64-pc-windows-msvc"; u "hasOwnProperty"] in
  let rt := Example.declaring ids in
  fst (action rt Example.package_json (u "pnpm build") initial) = Normal tt.
Proof.
  intros ids rt.
  apply (success_condition rt Example.package_json (u "pnpm build") initial
           (Example.manifest (map JString ids)) ids).
  - split; [vm_compute; reflexivity|].
    eexists. split; vm_compute; reflexivity.
  - vm_compute. reflexivity.
  - split; [discriminate|].
    constructor; [left; vm_compute; tauto|].
    constructor; [right; vm_compute; tauto|]. constructor.
Defined.

Lemma unsupported_is_not_no_targets (bad : list jsstring) :
  unsupported_message bad <> no_targets_message.
Proof. intros H. vm_compute in H. discriminate H. Qed.

(** X12. The no-targets failure has one cause only: on a readable
    manifest, the run fails with the error [Error: No napi.targets found
    in package.json] exactly when [napi.targets] is anything but a
    non-empty array; with a non-empty array, whatever its elements, the
    run ends otherwise. *)
Theorem no_targets_exactly (rt : Runtime) (path cmd : jsstring) (s : state)
  (m : json) :
  reads rt path m ->
  (fst (action rt path cmd s)
   = Throw (Error (u "Error: No napi.targets found in package.json"))
   <-> is_nonempty_array (napi_targets m) = false).
Proof.
  intros Hr. split.
  - intros H. destruct (is_nonempty_array (napi_targets m)) eqn:Hg;
      [exfalso | reflexivity].
    destruct (napi_targets m) as [[| b | n | str | [|t0 ts] | props]|] eqn:Hm;
      try discriminate Hg.
    destruct (strings_of (t0 :: ts)) as [ids|] eqn:Hs.
    + apply strings_of_Some in Hs.
      assert (Hd : declares m ids) by (unfold declares; congruence).
      assert (Hne : ids <> []) by (intros ->; discriminate).
      destruct (unresolved cmd ids) as [|b bad] eqn:Hu.
      * rewrite (action_declared rt path cmd m ids s Hr Hd Hne Hu) in H.
        discriminate.
      * rewrite (action_unsupported rt path cmd m ids s Hr Hd) in H
          by (rewrite Hu; discriminate).
        cbn [fst] in H.
        apply (f_equal (fun r : completion unit =>
                          match r with Throw e => message e | _ => [] end))
          in H.
        exact (unsupported_is_not_no_targets _ H).
    + destruct (strings_of_None_split _ Hs) as [pre [t [post [E Ht]]]].
      rewrite E in Hm. rewrite action_of_body in H.
      rewrite (action_body_not_a_string rt path cmd s m pre t post Hr Hm Ht)
        in H.
      discriminate.
  - intros Hg.
    rewrite (action_no_targets rt path cmd s m Hr)
      by (rewrite guard_is_nonempty_array, Hg; reflexivity).
    reflexivity.
Qed.

Lemma no_targets_exactly_witness :
  let rt := Example.node Example.package_json (jq "{'napi':{'targets':'x86_64-apple-darwin'}}")
              (JObject [(u "napi",
                         JObject [(u "targets",
                                   JString (u "x86_64-apple-darwin"))])]) in
  fst (action rt Example.package_json (u "pnpm build") initial)
  = Throw (Error (u "Error: No napi.targets found in package.json")).
Proof.
  intros rt.
  apply (no_targets_exactly rt Example.package_json (u "pnpm build") initial
           (JObject [(u "napi",
                      JObject [(u "targets",
                                JString (u "x86_64-apple-darwin"))])])).
  - split; [vm_compute; reflexivity|].
    eexists. split; vm_compute; reflexivity.
  - reflexivity.
Defined.

Lemma resolved_unresolved_length (cmd : jsstring) (ids : list jsstring) :
  (List.length (resolved cmd ids) + List.length (unresolved cmd ids)
   = List.length ids)%nat.
Proof.
  unfold unresolved. induction ids as [|id ids IH]; simpl; [reflexivity|].
  destruct (getPlatformConfig (clean id) cmd); simpl; lia.
Qed.

(** X13. The loop partitions what it visits: whenever the loop over
    [napiTargets] ends without throwing, every element was a string, each
    one went either to [matrixItems], as the value the registry answered,
    or to [unsupportedTargets], as its cleaned form, both in declaration
    order after what the arrays already held; the two arrays grew by as
    many entries as there were targets, every entry added to
    [unsupportedTargets] is one the registry answers [null] for, and the
    loop touched neither the outputs nor the failure record. *)
Theorem loop_partitions_targets (rt : Runtime) (cmd : jsstring)
  (targets : list json) (items items' : list jsvalue)
  (unsup unsup' : list jsstring) (s s' : state) :
  for_of_napiTargets rt targets cmd items unsup s
  = (Normal (items', unsup'), s') ->
  exists ids,
    targets = map JString ids
    /\ items' = items ++ resolved cmd ids
    /\ unsup' = unsup ++ unresolved cmd ids
    /\ (List.length items' + List.length unsup'
        = List.length items + List.length unsup + List.length targets)%nat
    /\ Forall (fun c => getPlatformConfig c cmd = None) (unresolved cmd ids)
    /\ outputs s' = outputs s /\ failed s' = failed s.
Proof.
  intros H.
  destruct (strings_of targets) as [ids|] eqn:Hs.
  - apply strings_of_Some in Hs. subst targets.
    rewrite for_of_strings in H. inversion H; subst. exists ids.
    split; [reflexivity|]. split; [reflexivity|]. split; [reflexivity|].
    split.
    + rewrite !length_app, length_map.
      pose proof (resolved_unresolved_length cmd ids). lia.
    + split; [|split; reflexivity].
      apply Forall_forall. intros c Hc. unfold unresolved in Hc.
      apply filter_In in Hc as [_ Hc].
      destruct (getPlatformConfig c cmd); [discriminate | reflexivity].
  - destruct (for_of_not_strings rt cmd targets Hs items unsup s) as [e He].
    rewrite H in He. discriminate.
Qed.

Lemma loop_partitions_targets_witness :
  exists ids,
    map JString [u "bogus"; u "i686-pc-windows-msvc"; u "bogus"]
    = map JString ids
    /\ [Config (row (u "i686-pc-windows-msvc") (u "pnpm build"))]
       = [] ++ resolved (u "pnpm build") ids
    /\ [u "bogus"; u "bogus"] = [] ++ unresolved (u "pnpm build") ids.
Proof.
  destruct (loop_partitions_targets
              (Example.declaring []) (u "pnpm build")
              (map JString [u "bogus"; u "i686-pc-windows-msvc"; u "bogus"])
              [] [Config (row (u "i686-pc-windows-msvc") (u "pnpm build"))]
              [] [u "bogus"; u "bogus"] initial
              (snd (for_of_napiTargets (Example.declaring [])
                      (map JString
                         [u "bogus"; u "i686-pc-windows-msvc"; u "bogus"])
                      (u "pnpm build") [] [] initial)))
    as [ids [H1 [H2 [H3 _]]]].
  - vm_compute. reflexivity.
  - exists ids. auto.
Defined.

(** ** The published Build Plan determines its rows *)

Section PlanReadBack.

Import PlanReader.

Lemma expect_app (prefix text : jsstring) :
  expect prefix (prefix ++ text) = Some text.
Proof.
  induction prefix as [|p prefix IH]; simpl; [reflexivity|].
  rewrite N.eqb_refl. exact IH.
Qed.

Lemma read_field_ok (name v more : jsstring) :
  read_field name
    (Json.QuoteJSONString name ++ 58 :: Json.QuoteJSONString v ++ more)
  = Some (v, more).
Proof.
  unfold read_field.
  replace (Json.QuoteJSONString name ++ 58 :: Json.QuoteJSONString v ++ more)
    with ((Json.QuoteJSONString name ++ [58; 34])
          ++ Json.escape_units v ++ 34 :: more).
  - rewrite expect_app. apply read_escape_units.
  - unfold Json.QuoteJSONString. rewrite <- !app_assoc. reflexivity.
Qed.

Lemma stringify_item_shape (h t b rest : jsstring) :
  Json.stringify_item (Config (mkConfig h t b)) ++ rest
  = 123 :: Json.QuoteJSONString (u "host") ++ 58 :: Json.QuoteJSONString h
    ++ 44 :: Json.QuoteJSONString (u "target") ++ 58 :: Json.QuoteJSONString t
    ++ 44 :: Json.QuoteJSONString (u "build") ++ 58 :: Json.QuoteJSONString b
    ++ 125 :: rest.
Proof.
  unfold Json.stringify_item. cbn [host target build].
  rewrite <- !app_assoc. reflexivity.
Qed.

Lemma read_row_ok (r : PlatformConfig) (rest : jsstring) :
  read_row (Json.stringify_item (Config r) ++ rest) = Some (r, rest).
Proof.
  destruct r as [h t b]. rewrite stringify_item_shape. unfold read_row.
  cbn [expect N.eqb Pos.eqb]. rewrite read_field_ok.
  cbn [expect N.eqb Pos.eqb]. rewrite read_field_ok.
  cbn [expect N.eqb Pos.eqb]. rewrite read_field_ok.
  cbn [expect N.eqb Pos.eqb]. reflexivity.
Qed.

Lemma read_rows_tail (rows : list PlatformConfig) :
  forall fuel, (List.length rows < fuel)%nat ->
               read_rows fuel (rows_tail rows) = Some rows.
Proof.
  induction rows as [|r rows IH]; intros [|fuel] H; simpl in H; try lia.
  - reflexivity.
  - cbn [rows_tail read_rows N.eqb Pos.eqb].
    rewrite read_row_ok, IH by lia. reflexivity.
Qed.

Lemma rows_tail_length (rows : list PlatformConfig) :
  (List.length rows < List.length (rows_tail rows))%nat.
Proof.
  induction rows as [|r rows IH]; simpl; [lia|].
  rewrite length_app. lia.
Qed.

Lemma join_rows_tail (r : PlatformConfig) (rows : list PlatformConfig) :
  join (u ",") (map Json.stringify_item (map Config (r :: rows)))
  ++ u "]" ++ u "}"
  = Json.stringify_item (Config r) ++ rows_tail rows.
Proof.
  revert r; induction rows as [|r' rows IH]; intros r; [reflexivity|].
  change (join (u ",") (map Json.stringify_item (map Config (r :: r' :: rows))))
    with (Json.stringify_item (Config r) ++ u ","
          ++ join (u ",")
               (map Json.stringify_item (map Config (r' :: rows)))).
  rewrite <- !app_assoc. rewrite IH. reflexivity.
Qed.

Lemma stringify_item_head (r : PlatformConfig) (rest : jsstring) :
  exists tl, Json.stringify_item (Config r) ++ rest = 123 :: tl.
Proof.
  destruct r as [h t b]. rewrite stringify_item_shape. eexists. reflexivity.
Qed.

(** Reading back the serialization of a list of rows gives the rows. *)
Lemma read_stringify_matrix (rows : list PlatformConfig) :
  read_plan (Json.stringify_matrix (map Config rows)) = Some rows.
Proof.
  unfold Json.stringify_matrix, read_plan.
  replace (u "{" ++ Json.QuoteJSONString (u "settings") ++ u ":" ++ u "["
           ++ join (u ",") (map Json.stringify_item (map Config rows))
           ++ u "]" ++ u "}")
    with (([123] ++ Json.QuoteJSONString (u "settings") ++ [58; 91])
          ++ join (u ",") (map Json.stringify_item (map Config rows))
          ++ u "]" ++ u "}")
    by (rewrite <- !app_assoc; reflexivity).
  rewrite expect_app.
  destruct rows as [|r rows]; [reflexivity|].
  rewrite join_rows_tail.
  destruct (stringify_item_head r (rows_tail rows)) as [tl E].
  rewrite E. cbn [N.eqb Pos.eqb]. rewrite <- E.
  rewrite read_row_ok, read_rows_tail by apply rows_tail_length.
  reflexivity.
Qed.

End PlanReadBack.

(** X14. The published Build Plan can be read back: the [matrix] text of
    a list of table rows parses to exactly these rows, whatever
    characters the build command holds (quotes, backslashes, commas,
    braces), so two different lists of rows never give the same text; and
    for declared identifiers that all clean to keys of the table, the
    plan reads back as the rows of the cleaned identifiers, in
    declaration order. *)
Theorem plan_reads_back (rows : list PlatformConfig) :
  PlanReader.read_plan (Json.stringify_matrix (map Config rows)) = Some rows
  /\ (forall rows',
        Json.stringify_matrix (map Config rows')
        = Json.stringify_matrix (map Config rows) ->
        rows' = rows)
  /\ forall (cmd : jsstring) (ids : list jsstring),
       Forall (fun id => In (clean id) supported_targets) ids ->
       PlanReader.read_plan (plan cmd ids)
       = Some (map (fun id => row (clean id) cmd) ids).
Proof.
  split; [apply read_stringify_matrix|]. split.
  - intros rows' H. apply (f_equal PlanReader.read_plan) in H.
    rewrite !read_stringify_matrix in H. congruence.
  - intros cmd ids Hs. unfold plan.
    destruct (resolved_of_supported cmd ids Hs) as [-> _].
    rewrite <- map_map with (g := Config). apply read_stringify_matrix.
Qed.

Lemma plan_reads_back_witness :
  PlanReader.read_plan
    (plan (jq "pnpm build --features 'a,b' --")
       [u "x86_64-apple-darwin"; u "aarch64-unknown-linux-gnu "])
  = Some [ mkConfig (u "macos-latest") (u "x86_64-apple-darwin")
             (jq "pnpm build --features 'a,b' -- --target x86_64-apple-darwin");
           mkConfig (u "ubuntu-22.04") (u "aarch64-unknown-linux-gnu")
             (jq "pnpm build --features 'a,b' -- --target aarch64-unknown-linux-gnu --use-cross") ].
Proof.
  rewrite (proj2 (proj2 (plan_reads_back []))
             (jq "pnpm build --features 'a,b' --")
             [u "x86_64-apple-darwin"; u "aarch64-unknown-linux-gnu "]).
  - vm_compute. reflexivity.
  - constructor; [vm_compute; tauto|].
    constructor; [vm_compute; tauto|]. constructor.
Defined.

(** * The claims that meet the lookup of inherited names *)

(** C1. Atomicity fails on the code: [constructor] is not a key of the
    table, so the declared list [x86_64-apple-darwin], [constructor]
    holds an unsupported identifier; yet the run returns, reports no
    failure, and publishes all three outputs, with a Build Plan that
    holds the row of the supported identifier followed by [null]. *)
Theorem atomicity_broken_by_inherited_name :
  ~ In (u "constructor") supported_targets
  /\ action (Example.declaring [u "x86_64-apple-darwin"; u "constructor"])
       Example.package_json (u "pnpm build") initial
     = (Normal tt,
        mkState
          [ log_reading Example.package_json;
            log_found 2;
            log_raw_targets
              [JString (u "x86_64-apple-darwin"); JString (u "constructor")];
            log_processing (u "x86_64-apple-darwin");
            log_added (u "x86_64-apple-darwin");
            log_processing (u "constructor");
            log_added (u "constructor");
            log_generated 2;
            log_matrix
              (jq "{'settings':[{'host':'macos-latest','target':'x86_64-apple-darwin','build':'pnpm build --target x86_64-apple-darwin'},null]}");
            log_binding_directory (u "crates/binding") ]
          [ (u "matrix",
             jq "{'settings':[{'host':'macos-latest','target':'x86_64-apple-darwin','build':'pnpm build --target x86_64-apple-darwin'},null]}");
            (u "targets", jq "['x86_64-apple-darwin','constructor']");
            (u "binding-directory", u "crates/binding") ]
          []).
Proof.
  split.
  - vm_compute. intros H.
    repeat (destruct H as [H|H]; [discriminate H|]). exact H.
  - vm_compute. reflexivity.
Qed.

(** C2. Exhaustive aggregation fails on the code: none of
    [constructor], [bogus], [toString] is a key of the table, yet for
    this declared list the failure message names [bogus] only; the two
    inherited names are logged as added and left out of the report. *)
Theorem unsupported_report_omits_inherited_names :
  (forall id, In id [u "constructor"; u "bogus"; u "toString"] ->
              ~ In id supported_targets)
  /\ action (Example.declaring [u "constructor"; u "bogus"; u "toString"])
       Example.package_json (u "pnpm build") initial
     = (Throw (Error (u "Error: Unsupported targets found: bogus")),
        mkState
          [ log_reading Example.package_json;
            log_found 3;
            log_raw_targets
              [JString (u "constructor"); JString (u "bogus");
               JString (u "toString")];
            log_processing (u "constructor");
            log_added (u "constructor");
            log_processing (u "bogus");
            error_no_config (u "bogus");
            log_processing (u "toString");
            log_added (u "toString");
            error_generating (u "Error: Unsupported targets found: bogus") ]
          []
          [u "Error: Unsupported targets found: bogus"]).
Proof.
  split.
  - intros id Hid Hin. vm_compute in Hid.
    repeat (destruct Hid as [<-|Hid];
            [vm_compute in Hin;
             repeat (destruct Hin as [Hin|Hin]; [discriminate Hin|]);
             exact Hin|]).
    exact Hid.
  - vm_compute. reflexivity.
Qed.

(** * The published Build Plan, entry by entry *)

Section SettingsReadBack.

Import PlanReader SettingsReader.

Lemma stringify_row_head (r : PlatformConfig) (rest : jsstring) :
  exists tl, Json.stringify_item (Config r) ++ rest = 123 :: 34 :: tl.
Proof.
  destruct r as [h t b]. rewrite stringify_item_shape.
  unfold Json.QuoteJSONString at 1. cbn [app]. eexists. reflexivity.
Qed.

Lemma read_entry_ok (v : jsvalue) (rest : jsstring) :
  read_entry (Json.stringify_item v ++ rest) = Some (entry_of v, rest).
Proof.
  assert (E1 : forall tl, expect (u "null") (123 :: tl) = None)
    by reflexivity.
  assert (E2 : forall tl, expect (u "{}") (123 :: 34 :: tl) = None)
    by reflexivity.
  destruct v as [r | name]; unfold read_entry.
  - destruct (stringify_row_head r rest) as [tl E].
    rewrite E, E1, E2, <- E, read_row_ok. reflexivity.
  - cbn [Json.stringify_item entry_of].
    destruct (eqb name (u "__proto__")).
    + change (u "{}" ++ rest) with (123 :: 125 :: rest).
      rewrite E1. reflexivity.
    + rewrite expect_app. reflexivity.
Qed.

Lemma read_entries_tail (items : list jsvalue) :
  forall fuel, (List.length items < fuel)%nat ->
               read_entries fuel (entries_tail items)
               = Some (map entry_of items).
Proof.
  induction items as [|v items IH]; intros [|fuel] H; simpl in H; try lia.
  - reflexivity.
  - cbn [entries_tail read_entries N.eqb Pos.eqb].
    rewrite read_entry_ok, IH by lia. reflexivity.
Qed.

Lemma entries_tail_length (items : list jsvalue) :
  (List.length items < List.length (entries_tail items))%nat.
Proof.
  induction items as [|v items IH]; simpl; [lia|].
  rewrite length_app. lia.
Qed.

Lemma join_entries_tail (v : jsvalue) (items : list jsvalue) :
  join (u ",") (map Json.stringify_item (v :: items)) ++ u "]" ++ u "}"
  = Json.stringify_item v ++ entries_tail items.
Proof.
  revert v; induction items as [|w items IH]; intros v; [reflexivity|].
  change (join (u ",") (map Json.stringify_item (v :: w :: items)))
    with (Json.stringify_item v ++ u ","
          ++ join (u ",") (map Json.stringify_item (w :: items))).
  rewrite <- !app_assoc. rewrite IH. reflexivity.
Qed.

Lemma stringify_item_first (v : jsvalue) (rest : jsstring) :
  exists c tl, Json.stringify_item v ++ rest = c :: tl /\ (c =? 93) = false.
Proof.
  destruct v as [r | name].
  - destruct (stringify_row_head r rest) as [tl E].
    exists 123, (34 :: tl). split; [exact E | reflexivity].
  - cbn [Json.stringify_item]. destruct (eqb name (u "__proto__")).
    + exists 123, (125 :: rest). split; reflexivity.
    + exists 110, (u "ull" ++ rest). split; reflexivity.
Qed.

(** Reading back a serialized Build Plan gives the entries its items are
    written as, in order. *)
Lemma read_stringify_settings (items : list jsvalue) :
  read_settings (Json.stringify_matrix items) = Some (map entry_of items).
Proof.
  unfold Json.stringify_matrix, read_settings.
  replace (u "{" ++ Json.QuoteJSONString (u "settings") ++ u ":" ++ u "["
           ++ join (u ",") (map Json.stringify_item items)
           ++ u "]" ++ u "}")
    with (([123] ++ Json.QuoteJSONString (u "settings") ++ [58; 91])
          ++ join (u ",") (map Json.stringify_item items)
          ++ u "]" ++ u "}")
    by (rewrite <- !app_assoc; reflexivity).
  rewrite expect_app.
  destruct items as [|v items]; [reflexivity|].
  rewrite join_entries_tail.
  destruct (stringify_item_first v (entries_tail items)) as [c [tl [E Hc]]].
  rewrite E, Hc, <- E.
  rewrite read_entry_ok, read_entries_tail by apply entries_tail_length.
  reflexivity.
Qed.

End SettingsReadBack.

Lemma map_Some_inj {A : Type} (a b : list A) :
  map Some a = map Some b -> a = b.
Proof.
  revert b; induction a as [|x a IH]; intros [|y b] H; simpl in H;
    try discriminate; [reflexivity|].
  inversion H; subst. f_equal. auto.
Qed.

(** C4. Order preservation: when a run returns, the published [matrix]
    text reads back as a list of entries that has as many entries as the
    manifest declares identifiers and holds, position by position, what
    the registry answers for the identifier declared at that position
    (cleaned), so nothing is reordered and a repeated identifier has one
    entry per occurrence; the entry of an identifier that cleans to a key
    of the table is the row of that key, with [target] the cleaned
    identifier. *)
Theorem plan_preserves_order (rt : Runtime) (path cmd : jsstring)
  (s s' : state) :
  action rt path cmd s = (Normal tt, s') ->
  exists (m : json) (ids : list jsstring) (matrixJson : jsstring)
         (entries : list SettingsReader.entry),
    reads rt path m /\ declares m ids
    /\ outputs s'
       = outputs s
         ++ [ (u "matrix", matrixJson);
              (u "targets", Json.stringify (JArray (map JString ids)));
              (u "binding-directory", dirname rt path) ]
    /\ SettingsReader.read_settings matrixJson = Some entries
    /\ List.length entries = List.length ids
    /\ map Some entries
       = map (fun id =>
                option_map SettingsReader.entry_of
                  (getPlatformConfig (clean id) cmd)) ids
    /\ forall (i : nat) (id : jsstring),
         nth_error ids i = Some id ->
         In (clean id) supported_targets ->
         exists c, nth_error entries i = Some (SettingsReader.Row c)
                   /\ target c = clean id
                   /\ c = row (clean id) cmd.
Proof.
  intros Ha.
  destruct (action_normal rt path cmd s s' tt Ha)
    as [m [ids [Hr [Hd [_ [Hu ->]]]]]].
  pose proof (resolved_lookup_all cmd ids Hu) as Hl.
  assert (Hm : map Some (map SettingsReader.entry_of (resolved cmd ids))
               = map (fun id =>
                        option_map SettingsReader.entry_of
                          (getPlatformConfig (clean id) cmd)) ids).
  { apply (f_equal (map (option_map SettingsReader.entry_of))) in Hl.
    unfold lookup_all in Hl. rewrite !map_map in Hl. rewrite map_map.
    exact Hl. }
  exists m, ids, (plan cmd ids),
    (map SettingsReader.entry_of (resolved cmd ids)).
  split; [exact Hr|]. split; [exact Hd|]. split; [reflexivity|].
  split; [apply read_stringify_settings|]. split.
  - apply (f_equal (@List.length _)) in Hm. rewrite !length_map in Hm.
    rewrite length_map. exact Hm.
  - split; [exact Hm|]. intros i id Hi Hin.
    apply (f_equal (fun l => nth_error l i)) in Hm.
    rewrite !nth_error_map, Hi in Hm. cbn [option_map] in Hm.
    rewrite (registry_row _ cmd Hin) in Hm. cbn [option_map] in Hm.
    rewrite nth_error_map.
    destruct (nth_error (resolved cmd ids) i) as [v|];
      cbn [option_map] in Hm; [|discriminate].
    injection Hm as Hm. cbn [option_map]. rewrite Hm.
    eexists. repeat split.
Qed.

Lemma plan_preserves_order_witness :
  let rt := Example.declaring
              [u "aarch64-apple-darwin"; u "aarch64-apple-darwin";
               u "x86_64-pc-windows-msvc"] in
  outputs (snd (action rt Example.package_json (u "pnpm build") initial))
  = [ (u "matrix",
       jq "{'settings':[{'host':'macos-latest','target':'aarch64-apple-darwin','build':'pnpm build --target aarch64-apple-darwin'},{'host':'macos-latest','target':'aarch64-apple-darwin','build':'pnpm build --target aarch64-apple-darwin'},{'host':'windows-latest','target':'x86_64-pc-windows-msvc','build':'pnpm build --target x86_64-pc-windows-msvc'}]}");
      (u "targets",
       jq "['aarch64-apple-darwin','aarch64-apple-darwin','x86_64-pc-windows-msvc']");
      (u "binding-directory", u "crates/binding") ]
  /\ SettingsReader.read_settings
       (jq "{'settings':[{'host':'macos-latest','target':'aarch64-apple-darwin','build':'pnpm build --target aarch64-apple-darwin'},{'host':'macos-latest','target':'aarch64-apple-darwin','build':'pnpm build --target aarch64-apple-darwin'},{'host':'windows-latest','target':'x86_64-pc-windows-msvc','build':'pnpm build --target x86_64-pc-windows-msvc'}]}")
     = Some
         [ SettingsReader.Row
             (mkConfig (u "macos-latest") (u "aarch64-apple-darwin")
                (u "pnpm build --target aarch64-apple-darwin"));
           SettingsReader.Row
             (mkConfig (u "macos-latest") (u "aarch64-apple-darwin")
                (u "pnpm build --target aarch64-apple-darwin"));
           SettingsReader.Row
             (mkConfig (u "windows-latest") (u "x86_64-pc-windows-msvc")
                (u "pnpm build --target x86_64-pc-windows-msvc")) ].
Proof.
  intros rt.
  destruct (plan_preserves_order rt Example.package_json (u "pnpm build")
              initial
              (snd (action rt Example.package_json (u "pnpm build") initial)))
    as [m [ids [matrixJson [entries [Hr [Hd [Ho [Hread [_ [Hmap _]]]]]]]]]].
  - vm_compute. reflexivity.
  - assert (Hr0 : reads rt Example.package_json
                    (Example.manifest
                       (map JString
                          [u "aarch64-apple-darwin"; u "aarch64-apple-darwin";
                           u "x86_64-pc-windows-msvc"]))).
    { split; [vm_compute; reflexivity|].
      eexists. split; vm_compute; reflexivity. }
    rewrite <- (reads_functional _ _ _ _ Hr0 Hr) in Hd.
    assert (E : ids = [u "aarch64-apple-darwin"; u "aarch64-apple-darwin";
                       u "x86_64-pc-windows-msvc"]).
    { apply (declares_functional _ _ _ Hd). vm_compute. reflexivity. }
    subst ids.
    assert (Em : matrixJson
                 = jq "{'settings':[{'host':'macos-latest','target':'aarch64-apple-darwin','build':'pnpm build --target aarch64-apple-darwin'},{'host':'macos-latest','target':'aarch64-apple-darwin','build':'pnpm build --target aarch64-apple-darwin'},{'host':'windows-latest','target':'x86_64-pc-windows-msvc','build':'pnpm build --target x86_64-pc-windows-msvc'}]}").
    { apply (f_equal (fun l => match l with
                               | (_, v) :: _ => v
                               | [] => @nil N
                               end)) in Ho.
      symmetry. etransitivity; [|exact Ho]. vm_compute. reflexivity. }
    assert (Ee : entries
                 = [ SettingsReader.Row
                       (mkConfig (u "macos-latest") (u "aarch64-apple-darwin")
                          (u "pnpm build --target aarch64-apple-darwin"));
                     SettingsReader.Row
                       (mkConfig (u "macos-latest") (u "aarch64-apple-darwin")
                          (u "pnpm build --target aarch64-apple-darwin"));
                     SettingsReader.Row
                       (mkConfig (u "windows-latest")
                          (u "x86_64-pc-windows-msvc")
                          (u "pnpm build --target x86_64-pc-windows-msvc")) ]).
    { apply map_Some_inj. rewrite Hmap. vm_compute. reflexivity. }
    split.
    + rewrite Ho, Em. vm_compute. reflexivity.
    + rewrite <- Em, <- Ee. exact Hread.
Defined.

(** * White space around declared identifiers *)

Lemma clean_of_padded (id declared : jsstring) :
  padded id declared -> clean declared = clean id.
Proof.
  intros [pre [post [Hpre [Hpost ->]]]].
  apply clean_surrounding; assumption.
Qed.

Lemma clean_of_supported (id : jsstring) :
  In id supported_targets -> clean id = id.
Proof.
  intros H. apply tidy_is_fixed.
  exact (proj2 (accepted_is_tidy id (or_introl H))).
Qed.

Lemma map_clean_padded (ids declared : list jsstring) :
  Forall2 padded ids declared -> map clean declared = map clean ids.
Proof.
  induction 1 as [|id d ids declared Hp _ IH]; [reflexivity|].
  simpl. rewrite (clean_of_padded id d Hp), IH. reflexivity.
Qed.

Lemma unresolved_clean_ext (cmd : jsstring) (ids ids' : list jsstring) :
  map clean ids = map clean ids' -> unresolved cmd ids = unresolved cmd ids'.
Proof. unfold unresolved. intros ->. reflexivity. Qed.

Lemma processed_succeeded (rt : Runtime) (path cmd : jsstring)
  (ids : list jsstring) (s : state) :
  processed (console (succeeded rt path cmd ids s))
  = processed (console s) ++ map clean ids.
Proof.
  unfold succeeded. cbn [console].
  rewrite !processed_app, processed_loop_lines. cbn [processed announced].
  rewrite app_nil_r. reflexivity.
Qed.

Lemma nth_error_first_new {A : Type} (l : list A) (x : A) (rest : list A) :
  nth_error (l ++ x :: rest) (List.length l) = Some x.
Proof.
  rewrite nth_error_app2 by lia.
  replace (List.length l - List.length l)%nat with 0%nat by lia.
  reflexivity.
Qed.

(** The loop on one declared string. *)
Lemma for_of_one (rt : Runtime) (cmd declared : jsstring)
  (items : list jsvalue) (unsup : list jsstring) (s : state) :
  for_of_napiTargets rt [JString declared] cmd items unsup s
  = match getPlatformConfig (clean declared) cmd with
    | Some v =>
        (Normal (items ++ [v], unsup),
         mkState
           (console s
              ++ [log_processing (clean declared); log_added (clean declared)])
           (outputs s) (failed s))
    | None =>
        (Normal (items, unsup ++ [clean declared]),
         mkState
           (console s
              ++ [log_processing (clean declared);
                  error_no_config (clean declared)])
           (outputs s) (failed s))
    end.
Proof.
  change [JString declared] with (map JString [declared]).
  rewrite for_of_strings. unfold unresolved.
  cbn [resolved loop_lines map filter].
  destruct (getPlatformConfig (clean declared) cmd); cbn [is_null];
    rewrite ?app_nil_r; reflexivity.
Qed.

(** C6. Whitespace tolerance: the generator removes white space and line
    terminators around each declared identifier before it asks the
    registry. The loop treats a padded declaration exactly as the bare
    identifier, and for a key of the table it adds that key's row to
    [matrixItems]; a manifest that declares keys of the table with such
    padding is accepted, with the Build Plan of the bare keys; and a
    padded manifest ends as the bare one does: same completion, same
    failure record, same identifiers processed, same [matrix] output.
    The cleaning itself maps a padded string to what the bare string is
    cleaned to, never leaves white space or a line terminator at either
    end, and cleans [x86_64-apple-darwin] followed by a line feed to
    [x86_64-apple-darwin], which resolves identically. *)
Theorem whitespace_tolerance :
  (forall (pre s post cmd : jsstring),
      forallb isWhiteSpaceOrLineTerminator pre = true ->
      forallb isWhiteSpaceOrLineTerminator post = true ->
      clean (pre ++ s ++ post) = clean s
      /\ getPlatformConfig (clean (pre ++ s ++ post)) cmd
         = getPlatformConfig (clean s) cmd
      /\ (forall rt, cleanTarget rt (JString (pre ++ s ++ post))
                     = cleanTarget rt (JString s))
      /\ forall ids, plan cmd (map (fun id => pre ++ id ++ post) ids)
                     = plan cmd ids)
  /\ (forall (s : jsstring) (c : N),
        hd_error (clean s) = Some c \/ hd_error (rev (clean s)) = Some c ->
        isWhiteSpaceOrLineTerminator c = false)
  /\ clean (u "x86_64-apple-darwin" ++ [LF]) = u "x86_64-apple-darwin"
  /\ (forall cmd,
        getPlatformConfig (clean (u "x86_64-apple-darwin" ++ [LF])) cmd
        = getPlatformConfig (u "x86_64-apple-darwin") cmd)
  /\ (forall (rt : Runtime) (id declared cmd : jsstring)
             (items : list jsvalue) (unsup : list jsstring) (st : state),
        padded id declared ->
        for_of_napiTargets rt [JString declared] cmd items unsup st
        = for_of_napiTargets rt [JString id] cmd items unsup st
        /\ (In id supported_targets ->
            for_of_napiTargets rt [JString declared] cmd items unsup st
            = (Normal (items ++ [Config (row id cmd)], unsup),
               mkState (console st ++ [log_processing id; log_added id])
                 (outputs st) (failed st))))
  /\ (forall (rt : Runtime) (path cmd : jsstring) (st : state) (m : json)
             (ids declared : list jsstring),
        reads rt path m -> declares m declared ->
        Forall2 padded ids declared -> ids <> [] ->
        Forall (fun id => In id supported_targets) ids ->
        fst (action rt path cmd st) = Normal tt
        /\ outputs (snd (action rt path cmd st))
           = outputs st
             ++ [ (u "matrix",
                   Json.stringify_matrix
                     (map (fun id => Config (row id cmd)) ids));
                  (u "targets",
                   Json.stringify (JArray (map JString declared)));
                  (u "binding-directory", dirname rt path) ])
  /\ (forall (rt rt' : Runtime) (path path' cmd : jsstring) (st : state)
             (m m' : json) (ids declared : list jsstring),
        reads rt path m -> declares m ids ->
        reads rt' path' m' -> declares m' declared ->
        Forall2 padded ids declared ->
        fst (action rt' path' cmd st) = fst (action rt path cmd st)
        /\ failed (snd (action rt' path' cmd st))
           = failed (snd (action rt path cmd st))
        /\ processed (console (snd (action rt' path' cmd st)))
           = processed (console (snd (action rt path cmd st)))
        /\ nth_error (outputs (snd (action rt' path' cmd st)))
             (List.length (outputs st))
           = nth_error (outputs (snd (action rt path cmd st)))
               (List.length (outputs st))).
Proof.
  split; [|split; [|split; [|split; [|split; [|split]]]]].
  - intros pre s post cmd Hpre Hpost.
    pose proof (clean_surrounding pre s post Hpre Hpost) as E.
    split; [exact E|]. split; [rewrite E; reflexivity|].
    split; [intros rt; simpl; rewrite E; reflexivity|].
    intros ids. unfold plan. f_equal. apply resolved_clean_ext.
    rewrite map_map. apply map_ext. intros id.
    apply clean_surrounding; assumption.
  - intros s c [H|H]; [exact (clean_head s c H) | exact (clean_last s c H)].
  - vm_compute. reflexivity.
  - intros cmd.
    replace (clean (u "x86_64-apple-darwin" ++ [LF]))
      with (u "x86_64-apple-darwin") by (vm_compute; reflexivity).
    reflexivity.
  - intros rt id declared cmd items unsup st Hp.
    pose proof (clean_of_padded id declared Hp) as E.
    rewrite !for_of_one, E. split; [reflexivity|].
    intros Hin. rewrite (clean_of_supported id Hin).
    rewrite (registry_row id cmd Hin). reflexivity.
  - intros rt path cmd st m ids declared Hr Hd Hp Hne Hs.
    pose proof (map_clean_padded ids declared Hp) as E.
    assert (Ei : map clean ids = ids).
    { clear -Hs. induction Hs as [|id ids Hid _ IH]; [reflexivity|].
      simpl. rewrite (clean_of_supported id Hid), IH. reflexivity. }
    assert (Hs' : Forall (fun d => In (clean d) supported_targets) declared).
    { apply Forall_forall. intros d Hd'.
      apply (in_map clean) in Hd'. rewrite E, Ei in Hd'.
      rewrite Forall_forall in Hs. auto. }
    destruct (resolved_of_supported cmd declared Hs') as [E1 E2].
    assert (Hne' : declared <> [])
      by (intros ->; inversion Hp; subst; contradiction).
    rewrite (action_declared rt path cmd m declared st Hr Hd Hne' E2).
    cbn [fst snd succeeded outputs]. split; [reflexivity|].
    unfold published, plan. rewrite E1.
    rewrite <- (map_map clean (fun c => Config (row c cmd)) declared).
    rewrite E, Ei. reflexivity.
  - intros rt rt' path path' cmd st m m' ids declared Hr Hd Hr' Hd' Hp.
    pose proof (map_clean_padded ids declared Hp) as E.
    destruct ids as [|id ids].
    + inversion Hp; subst.
      rewrite (action_no_targets rt path cmd st m Hr)
        by (unfold declares in Hd; rewrite Hd; reflexivity).
      rewrite (action_no_targets rt' path' cmd st m' Hr')
        by (unfold declares in Hd'; rewrite Hd'; reflexivity).
      cbn [fst snd console outputs failed].
      rewrite !processed_app. repeat split.
    + assert (Hne : id :: ids <> []) by discriminate.
      assert (Hne' : declared <> [])
        by (intros ->; inversion Hp).
      pose proof (unresolved_clean_ext cmd _ _ E) as Eu.
      destruct (unresolved cmd (id :: ids)) as [|b bad] eqn:Hu.
      * rewrite (action_declared rt path cmd m _ st Hr Hd Hne Hu).
        rewrite (action_declared rt' path' cmd m' _ st Hr' Hd' Hne' Eu).
        cbn [fst snd]. rewrite !processed_succeeded, E.
        unfold succeeded. cbn [outputs failed]. unfold published.
        rewrite !nth_error_first_new. unfold plan.
        rewrite (resolved_clean_ext cmd _ _ E). repeat split.
      * assert (Hu1 : unresolved cmd (id :: ids) <> [])
          by (rewrite Hu; discriminate).
        assert (Hu2 : unresolved cmd declared <> [])
          by (rewrite Eu; discriminate).
        rewrite (action_unsupported rt path cmd m _ st Hr Hd Hu1).
        rewrite (action_unsupported rt' path' cmd m' _ st Hr' Hd' Hu2).
        cbn [fst snd console outputs failed].
        rewrite !processed_app, !processed_loop_lines, E, Eu, Hu.
        repeat split.
Qed.

Lemma whitespace_tolerance_witness :
  let rt := Example.declaring
              [u "x86_64-apple-darwin" ++ [LF];
               u "  " ++ u "aarch64-linux-android" ++ [CR; LF]] in
  fst (action rt Example.package_json (u "pnpm build") initial) = Normal tt
  /\ outputs (snd (action rt Example.package_json (u "pnpm build") initial))
     = [ (u "matrix",
          jq "{'settings':[{'host':'macos-latest','target':'x86_64-apple-darwin','build':'pnpm build --target x86_64-apple-darwin'},{'host':'ubuntu-22.04','target':'aarch64-linux-android','build':'pnpm build --target aarch64-linux-android'}]}");
         (u "targets",
          jq "['x86_64-apple-darwin\n','  aarch64-linux-android\r\n']");
         (u "binding-directory", u "crates/binding") ].
Proof.
  intros rt.
  destruct (proj1 (proj2 (proj2 (proj2 (proj2 (proj2 whitespace_tolerance)))))
              rt Example.package_json (u "pnpm build") initial
              (Example.manifest
                 (map JString
                    [u "x86_64-apple-darwin" ++ [LF];
                     u "  " ++ u "aarch64-linux-android" ++ [CR; LF]]))
              [u "x86_64-apple-darwin"; u "aarch64-linux-android"]
              [u "x86_64-apple-darwin" ++ [LF];
               u "  " ++ u "aarch64-linux-android" ++ [CR; LF]])
    as [H1 H2].
  - split; [vm_compute; reflexivity|].
    eexists. split; vm_compute; reflexivity.
  - vm_compute. reflexivity.
  - constructor; [|constructor; [|constructor]].
    + exists [], [LF]. repeat split.
    + exists (u "  "), [CR; LF]. repeat split.
  - discriminate.
  - constructor; [vm_compute; tauto|].
    constructor; [vm_compute; tauto|]. constructor.
  - split; [exact H1|]. rewrite H2. vm_compute. reflexivity.
Defined.
